(** * passport-instagram-token: token strategies, embedded and verified

    The repository holds three passport strategies that authenticate a
    request from a token the client sends along:

    - [InstagramToken]   src/index.js       (ES6 class, configurable fields,
                                             optional [sig] proof);
    - [InstagramLegacy]  lib/Strategy.js    (ES5 constructor, fixed field
                                             names, reads headers too);
    - [AppleToken]       the OIDC variant   (identity token checked with
                                             jsonwebtoken against Apple's keys).

    The embedding is shallow.  JavaScript values are the inductive [JsVal];
    objects are finite maps from property names to values.  Code written in
    continuation-passing style stays in that style: a method that takes a
    [done] callback takes a Rocq function.  Calls that leave the strategy
    (the HTTP GET of node-oauth, [jwt.verify], the application's verify
    callback) are nodes of a program tree [Prog]; the list of arguments the
    collaborator hands to the callback is what the tree branches on.

    Modelling boundaries, stated once:
    - numbers are the integer-valued ones; [NaN] and fractions do not occur;
    - property reads see own properties only (no prototype members, which
      are functions and have no [JsVal]);
    - strings are sequences of bytes, read as UTF-8; [length] and the
      indices of a string count bytes, as JavaScript does for ASCII text;
    - every collaborator calls its callback once and does not throw;
    - [_loadUserProfile], inherited from passport-oauth, forwards to
      [userProfile] (profile loading is not skipped). *)

From Stdlib Require Import ZArith NArith Bool Ascii.
From stdpp Require Import gmap strings list fin_maps pretty.

Set Warnings "-register-all".
Open Scope string_scope.

(** ** JavaScript values

    [JErr] is an instance of [Error] or of a subclass: its class name, its
    [message], and the [oauthError] that an [InternalOAuthError] wraps. *)

Inductive JsVal : Type :=
| JUndefined
| JNull
| JBool (b : bool)
| JNum (n : Z)
| JStr (s : string)
| JArr (items : list JsVal)
| JObj (props : gmap string JsVal)
| JErr (name : string) (message : JsVal) (oauthError : JsVal).

(** An object literal [{k1: v1, k2: v2, ...}] with distinct keys. *)
Definition obj (fields : list (string * JsVal)) : JsVal :=
  JObj (list_to_map fields).

(** ToBoolean: what [if (v)], [!v], [&&] and [||] test. *)
Definition truthy (v : JsVal) : bool :=
  match v with
  | JUndefined | JNull => false
  | JBool b => b
  | JNum n => negb (n =? 0)%Z
  | JStr s => negb (String.eqb s "")
  | JArr _ | JObj _ | JErr _ _ _ => true
  end.

(** [a && b] and [a || b] return one of their operands.  The right
    operand is pure wherever the strategies use these operators. *)
Definition js_and (a b : JsVal) : JsVal := if truthy a then b else a.
Definition js_or (a b : JsVal) : JsVal := if truthy a then a else b.

(** [typeof v === 'string'] *)
Definition is_string (v : JsVal) : bool :=
  match v with JStr _ => true | _ => false end.

(** [v === 'lit'] for a string literal: no coercion. *)
Definition strict_eq_str (v : JsVal) (lit : string) : bool :=
  match v with JStr s => String.eqb s lit | _ => false end.

Definition is_nullish (v : JsVal) : bool :=
  match v with JUndefined | JNull => true | _ => false end.

(** ToString, as template literals, property keys and [JSON.parse] apply it. *)
Fixpoint to_string (v : JsVal) : string :=
  match v with
  | JUndefined => "undefined"
  | JNull => "null"
  | JBool true => "true"
  | JBool false => "false"
  | JNum n => pretty n
  | JStr s => s
  | JArr items =>
      (fix join (l : list JsVal) : string :=
         match l with
         | [] => ""
         | x :: rest =>
             let sx := if is_nullish x then "" else to_string x in
             match rest with
             | [] => sx
             | _ :: _ => sx +:+ "," +:+ join rest
             end
         end) items
  | JObj _ => "[object Object]"
  | JErr name message _ =>
      let msg := match message with JUndefined => "" | _ => to_string message end in
      if String.eqb name "" then msg
      else if String.eqb msg "" then name
      else name +:+ ": " +:+ msg
  end.

(** The index a property key denotes, if it is a canonical array index
    (decimal digits, no leading zero). *)
Definition digit (c : ascii) : option nat :=
  let n := nat_of_ascii c in
  if (48 <=? n)%nat && (n <=? 57)%nat then Some (n - 48)%nat else None.

Fixpoint digits (s : string) (acc : nat) : option nat :=
  match s with
  | EmptyString => Some acc
  | String c r =>
      match digit c with
      | Some d => digits r (10 * acc + d)%nat
      | None => None
      end
  end.

Definition array_index (k : string) : option nat :=
  match k with
  | EmptyString => None
  | String c EmptyString => digit c
  | String c _ => if Ascii.eqb c "0" then None else digits k 0
  end.

Fixpoint string_nth (s : string) (i : nat) : option ascii :=
  match s, i with
  | EmptyString, _ => None
  | String c _, O => Some c
  | String _ r, S j => string_nth r j
  end.

(** [v[k]] for a [v] that is neither [null] nor [undefined]. *)
Definition get_own (v : JsVal) (k : string) : JsVal :=
  match v with
  | JObj props => default JUndefined (props !! k)
  | JErr name message oauthError =>
      if String.eqb k "name" then JStr name
      else if String.eqb k "message" then message
      else if String.eqb k "oauthError" then oauthError
      else JUndefined
  | JArr items =>
      if String.eqb k "length" then JNum (Z.of_nat (length items))
      else match array_index k with
           | Some i => default JUndefined (items !! i)
           | None => JUndefined
           end
  | JStr s =>
      if String.eqb k "length" then JNum (Z.of_nat (String.length s))
      else match array_index k with
           | Some i => match string_nth s i with
                       | Some c => JStr (String c EmptyString)
                       | None => JUndefined
                       end
           | None => JUndefined
           end
  | _ => JUndefined
  end.

(** [src && src[f]]: the member is read only from a truthy [src], where
    the read cannot throw. *)
Definition field (src : JsVal) (f : string) : JsVal :=
  if truthy src then get_own src f else src.

(** The errors the code raises or builds. *)
Definition TypeError (message : string) : JsVal :=
  JErr "TypeError" (JStr message) JUndefined.
Definition SyntaxError (message : string) : JsVal :=
  JErr "SyntaxError" (JStr message) JUndefined.
(** [new InternalOAuthError(message, err)] of passport-oauth. *)
Definition InternalOAuthError (message err : JsVal) : JsVal :=
  JErr "InternalOAuthError" message err.

(** ** Requests, collaborator calls and outcomes *)

Record Request : Type := {
  body : JsVal;
  query : JsVal;
  headers : JsVal
}.

(** What a strategy reports to passport: [this.fail(info)],
    [this.error(err)] or [this.success(user, info)]. *)
Inductive Outcome : Type :=
| Fail (info : JsVal)
| Error (err : JsVal)
| Success (user info : JsVal).

Inductive Call : Type :=
| OAuth2Get (url accessToken : JsVal)
    (* this._oauth2.get(url, accessToken, callback) *)
| JwtVerify (identityToken verifyOpts : JsVal)
    (* jwt.verify(identityToken, getAppleJWKSKey, verifyOpts, callback) *)
| Verify (req : option Request) (accessToken refreshToken profile : JsVal).
    (* this._verify([req,] accessToken, refreshToken, profile, verified) *)

(** A program: it returns, throws, or calls a collaborator and goes on
    in the callback with the arguments the collaborator passes. *)
Inductive Prog (A : Type) : Type :=
| Ret (a : A)
| Throw (e : JsVal)
| Vis (c : Call) (k : list JsVal -> Prog A).

Arguments Ret {A} a.
Arguments Throw {A} e.
Arguments Vis {A} c k.

Fixpoint bind {A B : Type} (p : Prog A) (f : A -> Prog B) : Prog B :=
  match p with
  | Ret a => f a
  | Throw e => Throw e
  | Vis c k => Vis c (fun args => bind (k args) f)
  end.

Notation "x <- p ;; q" := (bind p (fun x => q))
  (at level 100, p at next level, right associativity).

(** [try { p } catch (e) { h e }]: a collaborator's callback runs after
    the block was left, so only a synchronous throw is caught. *)
Definition try_catch {A : Type} (p : Prog A) (h : JsVal -> Prog A) : Prog A :=
  match p with
  | Throw e => h e
  | _ => p
  end.

(** The n-th argument a callback received; a missing one is [undefined]. *)
Definition arg (n : nat) (args : list JsVal) : JsVal :=
  default JUndefined (args !! n).

(** [v.k]: throws on [null] and [undefined]. *)
Definition member (v : JsVal) (k : string) : Prog JsVal :=
  if is_nullish v
  then Throw (TypeError ("Cannot read property '" +:+ k +:+ "' of " +:+ to_string v))
  else Ret (get_own v k).

(** Running a program against an environment that answers each call with
    the argument list of the callback.  The trace lists the calls made. *)
Inductive Completion (A : Type) : Type :=
| Normal (a : A)
| Uncaught (e : JsVal).

Arguments Normal {A} a.
Arguments Uncaught {A} e.

Fixpoint run {A : Type} (env : Call -> list JsVal) (p : Prog A)
  : list Call * Completion A :=
  match p with
  | Ret a => ([], Normal a)
  | Throw e => ([], Uncaught e)
  | Vis c k => let '(trace, r) := run env (k (env c)) in (c :: trace, r)
  end.

Definition is_verify_call (c : Call) : bool :=
  match c with Verify _ _ _ _ => true | _ => false end.

(** Every call a program can make, whatever the answers, satisfies [P]. *)
Inductive ForallCalls {A : Type} (P : Call -> Prop) : Prog A -> Prop :=
| FC_Ret a : ForallCalls P (Ret a)
| FC_Throw e : ForallCalls P (Throw e)
| FC_Vis c k : P c -> (forall args, ForallCalls P (k args)) -> ForallCalls P (Vis c k).

(** ** The runtime: JSON *)

(** [JSON.parse] and [JSON.stringify] belong to the engine.  [JSON_parse]
    returns the parsed value, or the message of the [SyntaxError] thrown. *)
Class Runtime : Type := {
  JSON_parse : string -> JsVal + string;
  JSON_stringify : JsVal -> JsVal
}.

(** [JSON.parse(v)]: the argument is converted to a string first. *)
Definition parse {rt : Runtime} (v : JsVal) : Prog JsVal :=
  match JSON_parse (to_string v) with
  | inl json => Ret json
  | inr message => Throw (SyntaxError message)
  end.

(** ** The runtime: crypto and URI encoding *)

Module Sha256.
Local Open Scope N_scope.
Local Open Scope list_scope.

Definition w32 (x : N) : N := x mod 2 ^ 32.
Definition add32 (a b : N) : N := w32 (a + b).
Definition rotr (n x : N) : N := N.lor (N.shiftr x n) (w32 (N.shiftl x (32 - n))).
Definition not32 (x : N) : N := N.lxor x 0xFFFFFFFF.

Definition Ch (x y z : N) : N := N.lxor (N.land x y) (N.land (not32 x) z).
Definition Maj (x y z : N) : N :=
  N.lxor (N.lxor (N.land x y) (N.land x z)) (N.land y z).
Definition Sigma0 (x : N) : N := N.lxor (N.lxor (rotr 2 x) (rotr 13 x)) (rotr 22 x).
Definition Sigma1 (x : N) : N := N.lxor (N.lxor (rotr 6 x) (rotr 11 x)) (rotr 25 x).
Definition sigma0 (x : N) : N := N.lxor (N.lxor (rotr 7 x) (rotr 18 x)) (N.shiftr x 3).
Definition sigma1 (x : N) : N := N.lxor (N.lxor (rotr 17 x) (rotr 19 x)) (N.shiftr x 10).

(** The constants are defined as the standard defines them: the first 32
    bits of the fractional parts of the cube roots (round constants) and of
    the square roots (initial hash value) of the first primes. *)
Definition is_prime (n : N) : bool :=
  forallb (fun d => negb (n mod N.of_nat d =? 0)) (seq 2 (N.to_nat n - 2)).

Definition primes (count : nat) : list N :=
  take count (List.filter is_prime (map N.of_nat (seq 2 320))).

(** The largest [r] below [2 ^ bits] with [r ^ k <= n], bit by bit. *)
Fixpoint root (k n : N) (bits : nat) (r : N) : N :=
  match bits with
  | O => r
  | S b =>
      let c := r + 2 ^ N.of_nat b in
      root k n b (if c ^ k <=? n then c else r)
  end.

Definition fractional_root (k p : N) : N := w32 (root k (p * 2 ^ (32 * k)) 40 0).

Definition K : list N := Eval vm_compute in map (fractional_root 3) (primes 64).

Definition H0 : list N := Eval vm_compute in map (fractional_root 2) (primes 8).

(** Big-endian bytes of [x], [n] of them. *)
Fixpoint be_bytes (n : nat) (x : N) : list N :=
  match n with
  | O => []
  | S m => (N.shiftr x (8 * N.of_nat m)) mod 256 :: be_bytes m x
  end.

Definition pad (msg : list N) : list N :=
  let len := length msg in
  let zeros := ((64 - ((len + 9) mod 64)) mod 64)%nat in
  msg ++ [0x80] ++ repeat 0 zeros ++ be_bytes 8 (8 * N.of_nat len).

Fixpoint be_words (bs : list N) : list N :=
  match bs with
  | a :: b :: c :: d :: rest =>
      (a * 2 ^ 24 + b * 2 ^ 16 + c * 2 ^ 8 + d) :: be_words rest
  | _ => []
  end.

(** The message schedule: [n] more words after the ones in [w]. *)
Fixpoint schedule (n : nat) (w : list N) : list N :=
  match n with
  | O => w
  | S m =>
      let t := length w in
      let at_ (i : nat) := nth (t - i) w 0 in
      schedule m (w ++ [add32 (add32 (sigma1 (at_ 2%nat)) (at_ 7%nat))
                              (add32 (sigma0 (at_ 15%nat)) (at_ 16%nat))])
  end.

Definition round (s : list N) (kw : N * N) : list N :=
  match s with
  | [a; b; c; d; e; f; g; h] =>
      let t1 := add32 (add32 (add32 h (Sigma1 e)) (add32 (Ch e f g) (fst kw))) (snd kw) in
      let t2 := add32 (Sigma0 a) (Maj a b c) in
      [add32 t1 t2; a; b; c; add32 d t1; e; f; g]
  | _ => s
  end.

Definition compress (h : list N) (block : list N) : list N :=
  let w := schedule 48 (be_words block) in
  let s := fold_left round (combine K w) h in
  map (fun p => add32 (fst p) (snd p)) (combine h s).

Fixpoint blocks (n : nat) (bs : list N) : list (list N) :=
  match n with
  | O => []
  | S m => take 64 bs :: blocks m (drop 64 bs)
  end.

Definition sha256 (msg : list N) : list N :=
  let padded := pad msg in
  let h := fold_left compress (blocks (length padded / 64) padded) H0 in
  concat (map (be_bytes 4) h).

(** HMAC (RFC 2104) with SHA-256, block size 64. *)
Definition hmac (key msg : list N) : list N :=
  let k0 := if (64 <? length key)%nat then sha256 key else key in
  let k := k0 ++ repeat 0 (64 - length k0) in
  sha256 (map (N.lxor 0x5c) k ++ sha256 (map (N.lxor 0x36) k ++ msg)).

Definition bytes (s : string) : list N :=
  map Ascii.N_of_ascii (String.list_ascii_of_string s).

Definition hex_digit (d : N) : Ascii.ascii :=
  match d with
  | 0 => "0" | 1 => "1" | 2 => "2" | 3 => "3" | 4 => "4" | 5 => "5" | 6 => "6" | 7 => "7"
  | 8 => "8" | 9 => "9" | 10 => "a" | 11 => "b" | 12 => "c" | 13 => "d" | 14 => "e" | _ => "f"
  end%char.

(** [digest('hex')]: two lower-case digits per byte. *)
Fixpoint hex (bs : list N) : string :=
  match bs with
  | [] => EmptyString
  | b :: rest => String (hex_digit ((b / 16) mod 16)) (String (hex_digit (b mod 16)) (hex rest))
  end.
End Sha256.

(** [crypto.createHmac('sha256', key).update(data).digest('hex')]: the key
    has to be a string (a buffer has no [JsVal]). *)
Definition createHmac_sha256_hex (key : JsVal) (data : string) : Prog string :=
  match key with
  | JStr k => Ret (Sha256.hex (Sha256.hmac (Sha256.bytes k) (Sha256.bytes data)))
  | _ => Throw (TypeError "The key argument must be of type string")
  end.

(** [encodeURIComponent]: every byte outside [A-Za-z0-9-_.!~*'()] becomes
    [%XX]. *)
Definition unreserved (c : ascii) : bool :=
  let n := nat_of_ascii c in
  ((65 <=? n) && (n <=? 90) || (97 <=? n) && (n <=? 122) || (48 <=? n) && (n <=? 57)
   || (n =? 45) || (n =? 95) || (n =? 46) || (n =? 33) || (n =? 126)
   || (n =? 42) || (n =? 39) || (n =? 40) || (n =? 41))%nat.

Definition upper_hex_digit (d : N) : ascii :=
  match d with
  | 10 => "A" | 11 => "B" | 12 => "C" | 13 => "D" | 14 => "E" | 15 => "F"
  | _ => Sha256.hex_digit d
  end%N%char.

Fixpoint encodeURIComponent (s : string) : string :=
  match s with
  | EmptyString => EmptyString
  | String c r =>
      if unreserved c then String c (encodeURIComponent r)
      else
        let n := N_of_ascii c in
        String "%" (String (upper_hex_digit ((n / 16) mod 16))
                      (String (upper_hex_digit (n mod 16)) (encodeURIComponent r)))
  end.

(** ** Writing a property *)

(** [v[k] = x], giving the object after the write.  The one write of the
    strategies, [json['id'] = json.data.id], gets here with an object only
    (lemma [data_member_object]): on anything else the right-hand side has
    thrown before.  The last branch is never taken. *)
Definition assign (v : JsVal) (k : string) (x : JsVal) : Prog JsVal :=
  match v with
  | JObj props => Ret (JObj (<[k := x]> props))
  | JUndefined | JNull =>
      Throw (TypeError ("Cannot set property '" +:+ k +:+ "' of " +:+ to_string v))
  | _ => Ret v
  end.

(** ** The store of option objects

    The constructors write into the [options] object they are given; the
    caller keeps a reference to it.  The store maps a reference to the
    properties of the object it denotes. *)
Abbreviation Heap := (gmap nat (gmap string JsVal)).

(** [options.k] *)
Definition opt (options : gmap string JsVal) (k : string) : JsVal :=
  default JUndefined (options !! k).

(** [let options = _options || {}]: the caller's object, or a new one. *)
Definition options_ref (h : Heap) (_options : option nat) : nat :=
  match _options with
  | Some l => l
  | None => fresh (dom h)
  end.

Definition options_props (h : Heap) (_options : option nat) : gmap string JsVal :=
  match _options with
  | Some l => default ∅ (h !! l)
  | None => ∅
  end.

(** [options.k = options.k || fallback] *)
Definition set_default (k fallback : string) (options : gmap string JsVal)
  : gmap string JsVal :=
  <[k := js_or (opt options k) (JStr fallback)]> options.

(** ** The dispatcher's completion callback

    The three strategies define the same [verified] closure inside
    [authenticate]. *)
Definition verified (error user info : JsVal) : Outcome :=
  if truthy error then Error error
  else if negb (truthy user) then Fail info
  else Success user info.

(** [verified] as the callback the application is handed. *)
Definition verified_callback (args : list JsVal) : Prog Outcome :=
  Ret (verified (arg 0 args) (arg 1 args) (arg 2 args)).

(** ** The OAuth2 profile callback

    src/index.js (lines 92-125) and lib/Strategy.js (lines 87-120) give
    [this._oauth2.get] the same callback. *)

Section OAuth2Profile.
Context {rt : Runtime}.

(** The body of the second [try] block, up to [done]. *)
Definition profile_of_body (body : JsVal) : Prog JsVal :=
  json <- parse body ;;
  data <- member json "data" ;;
  id <- member data "id" ;;
  json <- assign json "id" id ;;
  json_id <- member json "id" ;;
  data <- member json "data" ;;
  username <- member data "username" ;;
  full_name <- member data "full_name" ;;
  last_name <- member data "last_name" ;;
  first_name <- member data "first_name" ;;
  profile_picture <- member data "profile_picture" ;;
  Ret (obj [("provider", JStr "instagram");
            ("id", json_id);
            ("username", username);
            ("displayName", js_or full_name (JStr ""));
            ("name", obj [("familyName", js_or last_name (JStr ""));
                          ("givenName", js_or first_name (JStr ""))]);
            ("emails", JArr []);
            ("photos", JArr [obj [("value", profile_picture)]]);
            ("_raw", body);
            ("_json", json)]).

(** The callback itself: [(error, body, res) => ...]. *)
Definition oauth2_callback {A : Type} (done : JsVal -> JsVal -> Prog A)
    (args : list JsVal) : Prog A :=
  let error := arg 0 args in
  let body := arg 1 args in
  if truthy error then
    try_catch
      (errorJSON <- parse (get_own error "data") ;;
       meta <- member errorJSON "meta" ;;
       error_message <- member meta "error_message" ;;
       meta <- member errorJSON "meta" ;;
       code <- member meta "code" ;;
       done (InternalOAuthError error_message code) JUndefined)
      (fun _ =>
         done (InternalOAuthError (JStr "Failed to fetch user profile") error) JUndefined)
  else
    try_catch
      (profile <- profile_of_body body ;; done JNull profile)
      (fun e => done e JUndefined).
End OAuth2Profile.

(** ** src/index.js: the Instagram strategy *)

Module InstagramToken.

Record Strategy : Type := {
  name : string;
  _accessTokenField : JsVal;
  _refreshTokenField : JsVal;
  _profileURL : JsVal;
  _clientSecret : JsVal;
  _enableProof : bool;
  _passReqToCallback : JsVal
}.

(** [constructor(_options, _verify)]: the store after construction and
    the instance.  [super(options, verify)] reads [options] only. *)
Definition constructor (h : Heap) (_options : option nat) : Heap * Strategy :=
  let l := options_ref h _options in
  let options := options_props h _options in
  let options :=
    set_default "authorizationURL" "https://api.instagram.com/oauth/authorize/" options in
  let options :=
    set_default "tokenURL" "https://api.instagram.com/oauth/access_token" options in
  (<[l := options]> h,
   {| name := "instagram-token";
      _accessTokenField := js_or (opt options "accessTokenField") (JStr "access_token");
      _refreshTokenField := js_or (opt options "refreshTokenField") (JStr "refresh_token");
      _profileURL :=
        js_or (opt options "profileURL") (JStr "https://api.instagram.com/v1/users/self");
      _clientSecret := opt options "clientSecret";
      _enableProof :=
        match opt options "enableProof" with
        | JBool b => b
        | _ => true
        end;
      _passReqToCallback := opt options "passReqToCallback" |}).

(** The [url] that [userProfile] hands to [this._oauth2.get]. *)
Definition profile_request_url (st : Strategy) (accessToken : JsVal) : Prog JsVal :=
  if _enableProof st then
    let token := "/users/self|access_token=" +:+ to_string accessToken in
    proof <- createHmac_sha256_hex (_clientSecret st) token ;;
    Ret (JStr (to_string (_profileURL st) +:+ "?sig=" +:+ encodeURIComponent proof))
  else Ret (_profileURL st).

Section WithRuntime.
Context {rt : Runtime}.

Definition userProfile {A : Type} (st : Strategy) (accessToken : JsVal)
    (done : JsVal -> JsVal -> Prog A) : Prog A :=
  url <- profile_request_url st accessToken ;;
  Vis (OAuth2Get url accessToken) (oauth2_callback done).

(** Inherited from [OAuth2Strategy]. *)
Definition _loadUserProfile {A : Type} (st : Strategy) (accessToken : JsVal)
    (done : JsVal -> JsVal -> Prog A) : Prog A :=
  userProfile st accessToken done.

(** The two [let] bindings that open [authenticate]. *)
Definition accessToken_of (st : Strategy) (req : Request) : JsVal :=
  js_or (field (body req) (to_string (_accessTokenField st)))
        (field (query req) (to_string (_accessTokenField st))).

Definition refreshToken_of (st : Strategy) (req : Request) : JsVal :=
  js_or (field (body req) (to_string (_refreshTokenField st)))
        (field (query req) (to_string (_refreshTokenField st))).

(** The callback given to [_loadUserProfile]. *)
Definition dispatch (st : Strategy) (req : Request) (accessToken refreshToken : JsVal)
    (error profile : JsVal) : Prog Outcome :=
  if truthy error then Ret (Error error)
  else if truthy (_passReqToCallback st)
  then Vis (Verify (Some req) accessToken refreshToken profile) verified_callback
  else Vis (Verify None accessToken refreshToken profile) verified_callback.

Definition authenticate (st : Strategy) (req : Request) : Prog Outcome :=
  let accessToken := accessToken_of st req in
  let refreshToken := refreshToken_of st req in
  if negb (truthy accessToken)
  then Ret (Fail (obj [("message",
                        JStr ("You should provide " +:+ to_string (_accessTokenField st)))]))
  else _loadUserProfile st accessToken (dispatch st req accessToken refreshToken).
End WithRuntime.
End InstagramToken.

(** ** lib/Strategy.js: the earlier Instagram strategy *)

Module InstagramLegacy.

Record Strategy : Type := {
  name : string;
  _profileURL : JsVal;
  _passReqToCallback : JsVal
}.

(** [InstagramTokenStrategy(_options, _verify)] *)
Definition constructor (h : Heap) (_options : option nat) : Heap * Strategy :=
  let l := options_ref h _options in
  let options := options_props h _options in
  let options :=
    set_default "authorizationURL" "https://api.instagram.com/oauth/authorize/" options in
  let options :=
    set_default "tokenURL" "https://api.instagram.com/oauth/access_token" options in
  let options :=
    set_default "profileURL" "https://api.instagram.com/v1/users/self" options in
  (<[l := options]> h,
   {| name := "instagram-token";
      _profileURL := opt options "profileURL";
      _passReqToCallback := opt options "passReqToCallback" |}).

Section WithRuntime.
Context {rt : Runtime}.

Definition userProfile {A : Type} (st : Strategy) (accessToken : JsVal)
    (done : JsVal -> JsVal -> Prog A) : Prog A :=
  Vis (OAuth2Get (_profileURL st) accessToken) (oauth2_callback done).

(** Inherited from [OAuth2Strategy]. *)
Definition _loadUserProfile {A : Type} (st : Strategy) (accessToken : JsVal)
    (done : JsVal -> JsVal -> Prog A) : Prog A :=
  userProfile st accessToken done.

Definition accessToken_of (req : Request) : JsVal :=
  js_or (js_or (field (body req) "access_token") (field (query req) "access_token"))
        (field (headers req) "access_token").

Definition refreshToken_of (req : Request) : JsVal :=
  js_or (js_or (field (body req) "refresh_token") (field (query req) "refresh_token"))
        (field (headers req) "refresh_token").

Definition dispatch (st : Strategy) (req : Request) (accessToken refreshToken : JsVal)
    (error profile : JsVal) : Prog Outcome :=
  if truthy error then Ret (Error error)
  else if truthy (_passReqToCallback st)
  then Vis (Verify (Some req) accessToken refreshToken profile) verified_callback
  else Vis (Verify None accessToken refreshToken profile) verified_callback.

Definition authenticate (st : Strategy) (req : Request) : Prog Outcome :=
  let accessToken := accessToken_of req in
  let refreshToken := refreshToken_of req in
  if negb (truthy accessToken)
  then Ret (Fail (obj [("message", JStr "You should provide access_token")]))
  else _loadUserProfile st accessToken (dispatch st req accessToken refreshToken).
End WithRuntime.
End InstagramLegacy.

(** ** The OIDC variant: the Apple strategy *)

Module AppleToken.

Record Strategy : Type := {
  name : string;
  _clientID : JsVal;
  _identityTokenField : JsVal;
  _passReqToCallback : JsVal
}.

(** [constructor(_options, _verify)]: throws before it writes when
    [options.clientID] is missing. *)
Definition constructor (h : Heap) (_options : option nat)
  : Heap * Completion Strategy :=
  let l := options_ref h _options in
  let options := options_props h _options in
  if negb (truthy (opt options "clientID"))
  then (h, Uncaught (TypeError "AppleTokenStrategy requires a clientID option"))
  else
    let options :=
      set_default "authorizationURL" "https://appleid.apple.com/auth/authorize" options in
    let options :=
      set_default "tokenURL" "https://appleid.apple.com/auth/token" options in
    (<[l := options]> h,
     Normal {| name := "apple-token";
               _clientID := opt options "clientID";
               _identityTokenField :=
                 js_or (opt options "identityTokenField") (JStr "id_token");
               _passReqToCallback := opt options "passReqToCallback" |}).

Section WithRuntime.
Context {rt : Runtime}.

(** [user && (user.lastName || user.firstName)] *)
Definition supplies_name (user : JsVal) : bool :=
  truthy (js_and user (js_or (get_own user "lastName") (get_own user "firstName"))).

(** The [name] object built from the user-supplied fields. *)
Definition name_of (user : JsVal) : JsVal :=
  let name : gmap string JsVal := ∅ in
  let name :=
    if truthy (get_own user "lastName")
    then <["familyName" := get_own user "lastName"]> name else name in
  let name :=
    if truthy (get_own user "firstName")
    then <["givenName" := get_own user "firstName"]> name else name in
  JObj name.

(** The profile built in the callback of [jwt.verify]. *)
Definition profile_of_claims (jwtClaims user : JsVal) : Prog JsVal :=
  sub <- member jwtClaims "sub" ;;
  email <- member jwtClaims "email" ;;
  email_verified <- member jwtClaims "email_verified" ;;
  is_private_email <- member jwtClaims "is_private_email" ;;
  let profile : gmap string JsVal :=
    list_to_map
      [("provider", JStr "apple");
       ("id", sub);
       ("emails", JArr [obj [("value", email)]]);
       ("emailVerified", JBool (strict_eq_str email_verified "true"));
       ("isPrivateEmail", JBool (strict_eq_str is_private_email "true"));
       ("_raw", JSON_stringify jwtClaims);
       ("_json", jwtClaims)] in
  let profile :=
    if supplies_name user then <["name" := name_of user]> profile else profile in
  Ret (JObj profile).

(** The callback given to [jwt.verify]: [(err, jwtClaims) => ...]. *)
Definition jwt_callback {A : Type} (user : JsVal) (done : JsVal -> JsVal -> Prog A)
    (args : list JsVal) : Prog A :=
  let err := arg 0 args in
  let jwtClaims := arg 1 args in
  if truthy err
  then done (InternalOAuthError (JStr "Failed to validate identity token") err) JUndefined
  else profile <- profile_of_claims jwtClaims user ;; done JNull profile.

Definition verifyOpts (st : Strategy) : JsVal :=
  obj [("audience", _clientID st);
       ("issuer", JStr "https://appleid.apple.com");
       ("algorithms", JArr [JStr "RS256"])].

Definition userProfile {A : Type} (st : Strategy) (data : JsVal)
    (done : JsVal -> JsVal -> Prog A) : Prog A :=
  let identityToken := get_own data "identityToken" in
  let user := get_own data "user" in
  Vis (JwtVerify identityToken (verifyOpts st)) (jwt_callback user done).

(** Inherited from [OAuth2Strategy]. *)
Definition _loadUserProfile {A : Type} (st : Strategy) (data : JsVal)
    (done : JsVal -> JsVal -> Prog A) : Prog A :=
  userProfile st data done.

Definition identityToken_of (st : Strategy) (req : Request) : JsVal :=
  js_or (field (body req) (to_string (_identityTokenField st)))
        (field (query req) (to_string (_identityTokenField st))).

Definition user_of (req : Request) : JsVal :=
  js_or (field (body req) "user") (field (query req) "user").

(** [if (typeof user === 'string') { try { user = JSON.parse(user); }
    catch(err) {} }]: the value of [user] afterwards. *)
Definition parse_user (user : JsVal) : Prog JsVal :=
  if is_string user
  then try_catch (parse user) (fun _ => Ret user)
  else Ret user.

Definition dispatch (st : Strategy) (req : Request) (error profile : JsVal)
  : Prog Outcome :=
  if truthy error then Ret (Error error)
  else if truthy (_passReqToCallback st)
  then Vis (Verify (Some req) JUndefined JUndefined profile) verified_callback
  else Vis (Verify None JUndefined JUndefined profile) verified_callback.

Definition authenticate (st : Strategy) (req : Request) : Prog Outcome :=
  let identityToken := identityToken_of st req in
  let user := user_of req in
  if negb (truthy identityToken)
  then Ret (Fail (obj [("message",
                        JStr ("You should provide "
                              +:+ to_string (_identityTokenField st)))]))
  else
    user <- parse_user user ;;
    _loadUserProfile st (obj [("identityToken", identityToken); ("user", user)])
                     (dispatch st req).
End WithRuntime.
End AppleToken.

(** ** The three strategies side by side *)

Inductive AnyStrategy : Type :=
| Instagram (st : InstagramToken.Strategy)
| Legacy (st : InstagramLegacy.Strategy)
| Apple (st : AppleToken.Strategy).


Definition authenticate_any {rt : Runtime} (v : AnyStrategy) (req : Request) : Prog Outcome :=
  match v with
  | Instagram st => InstagramToken.authenticate st req
  | Legacy st => InstagramLegacy.authenticate st req
  | Apple st => AppleToken.authenticate st req
  end.




(** The [sig] proof of src/index.js in the words of the provider's
    documentation: the hex digest of the HMAC-SHA256, keyed by the client
    secret, of the endpoint and the access token. *)
Definition proof_signature (clientSecret accessToken : string) : string :=
  Sha256.hex (Sha256.hmac (Sha256.bytes clientSecret)
                (Sha256.bytes ("/users/self|access_token=" +:+ accessToken))).

(** The profile that [profile_of_body] builds from the parsed document
    [o] and its [data] member (lemma [profile_of_body_object]). *)
Definition normalized (body : JsVal) (o : gmap string JsVal) (data : JsVal) : JsVal :=
  obj [("provider", JStr "instagram");
       ("id", get_own data "id");
       ("username", get_own data "username");
       ("displayName", js_or (get_own data "full_name") (JStr ""));
       ("name", obj [("familyName", js_or (get_own data "last_name") (JStr ""));
                     ("givenName", js_or (get_own data "first_name") (JStr ""))]);
       ("emails", JArr []);
       ("photos", JArr [obj [("value", get_own data "profile_picture")]]);
       ("_raw", body);
       ("_json", JObj (<["id" := get_own data "id"]> o))].

(** [done] as an observer: it returns what it was called with. *)
Definition observe (error profile : JsVal) : Prog (JsVal * JsVal) :=
  Ret (error, profile).



(** The value is neither [null] nor [undefined]. *)
Definition defined (v : JsVal) : Prop := is_nullish v = false.

(** ** Test doubles

    Stand-ins for the engine and the collaborators, in the manner of the
    stubs of test/unit/index.test.js. *)

Definition dq : string := String (ascii_of_nat 34) EmptyString.

(** A string literal of a JSON text. *)
Definition quoted (s : string) : string := dq +:+ s +:+ dq.

Definition picture_url : string :=
  "http://distillery.s3.amazonaws.com/profiles/profile_1574083_75sq_1295469061.jpg".

(** The profile document of the tests, as text and parsed. *)
Definition fakeProfile : string :=
  "{" +:+ quoted "data" +:+ ":{"
  +:+ quoted "id" +:+ ":" +:+ quoted "1234567" +:+ ","
  +:+ quoted "username" +:+ ":" +:+ quoted "ghaiklor" +:+ ","
  +:+ quoted "full_name" +:+ ":" +:+ quoted "Eugene Obrezkov" +:+ ","
  +:+ quoted "first_name" +:+ ":" +:+ quoted "Eugene" +:+ ","
  +:+ quoted "last_name" +:+ ":" +:+ quoted "Obrezkov" +:+ ","
  +:+ quoted "profile_picture" +:+ ":" +:+ quoted picture_url +:+ "}}".

Definition fakeProfile_data : gmap string JsVal :=
  list_to_map [("id", JStr "1234567");
               ("username", JStr "ghaiklor");
               ("full_name", JStr "Eugene Obrezkov");
               ("first_name", JStr "Eugene");
               ("last_name", JStr "Obrezkov");
               ("profile_picture", JStr picture_url)].

Definition fakeProfile_json : gmap string JsVal :=
  {[ "data" := JObj fakeProfile_data ]}.

(** A document that carries an id and nothing else. *)
Definition bareProfile : string :=
  "{" +:+ quoted "data" +:+ ":{" +:+ quoted "id" +:+ ":" +:+ quoted "1234567" +:+ "}}".

Definition bareProfile_json : gmap string JsVal :=
  {[ "data" := obj [("id", JStr "1234567")] ]}.

(** Verified claims of an identity token. *)
Definition fakeClaims : JsVal :=
  obj [("iss", JStr "https://appleid.apple.com");
       ("aud", JStr "123");
       ("sub", JStr "001234.5678");
       ("email", JStr "eugene@privaterelay.appleid.com");
       ("email_verified", JStr "true");
       ("is_private_email", JBool true)].

(** An engine that knows the documents above and rejects other text. *)
Definition stub_runtime : Runtime := {|
  JSON_parse := fun s =>
    if String.eqb s fakeProfile then inl (JObj fakeProfile_json)
    else if String.eqb s bareProfile then inl (JObj bareProfile_json)
    else inr ("Unexpected token in JSON at position 0");
  JSON_stringify := fun v =>
    match v with
    | JUndefined => JUndefined
    | _ => JStr "{}"
    end
|}.

(** The options object of the tests, at reference [0] of the store. *)
Definition test_options : gmap string JsVal :=
  list_to_map [("clientID", JStr "123"); ("clientSecret", JStr "123")].

Definition test_heap : Heap := {[ 0%nat := test_options ]}.

Definition test_strategy : InstagramToken.Strategy :=
  snd (InstagramToken.constructor test_heap (Some 0%nat)).

Definition test_legacy : InstagramLegacy.Strategy :=
  snd (InstagramLegacy.constructor test_heap (Some 0%nat)).

Definition test_apple : AppleToken.Strategy :=
  {| AppleToken.name := "apple-token";
     AppleToken._clientID := JStr "123";
     AppleToken._identityTokenField := JStr "id_token";
     AppleToken._passReqToCallback := JUndefined |}.


(** The token of the tests, sent in one part of the request. *)
Definition body_request : Request :=
  {| body := obj [("access_token", JStr "access_token");
                  ("refresh_token", JStr "refresh_token")];
     query := JUndefined;
     headers := JUndefined |}.

Definition headers_request : Request :=
  {| body := JUndefined;
     query := JUndefined;
     headers := obj [("access_token", JStr "access_token");
                     ("refresh_token", JStr "refresh_token")] |}.

(** An identity token with a [user] fragment that is not JSON. *)
Definition apple_request : Request :=
  {| body := obj [("id_token", JStr "id_token"); ("user", JStr "{firstName:")];
     query := JUndefined;
     headers := JUndefined |}.

(** The application's callback of the tests: [next(null, profile, {info: 'foo'})]. *)
Definition test_env (fetched : list JsVal) (c : Call) : list JsVal :=
  match c with
  | Verify _ _ _ profile => [JNull; profile; obj [("info", JStr "foo")]]
  | _ => fetched
  end.

(** ** The key resolver of the OIDC strategy *)

(** [getAppleJWKSKey(header, callback)].  [getSigningKey] stands for
    [jwksClient.getSigningKey], which answers with [(err, key)]. *)
Definition getAppleJWKSKey {A : Type}
    (getSigningKey : JsVal -> (JsVal -> JsVal -> Prog A) -> Prog A)
    (header : JsVal) (callback : JsVal -> JsVal -> Prog A) : Prog A :=
  kid <- member header "kid" ;;
  getSigningKey kid
    (fun err key =>
       callback err
         (js_and key (js_or (get_own key "publicKey") (get_own key "rsaPublicKey")))).

(** ** More on the three strategies *)

(** [this._passReqToCallback], as [authenticate] tests it. *)
Definition passes_request (v : AnyStrategy) : bool :=
  match v with
  | Instagram st => truthy (InstagramToken._passReqToCallback st)
  | Legacy st => truthy (InstagramLegacy._passReqToCallback st)
  | Apple st => truthy (AppleToken._passReqToCallback st)
  end.

(** The verify callback gets [req] as its first argument, or no request. *)
Definition verify_gets_request (req : option Request) (c : Call) : Prop :=
  match c with
  | Verify r _ _ _ => r = req
  | _ => True
  end.


(** The calls of the OIDC strategy: [jwt.verify] with the token and the
    options, the verify callback with no token at all, and no GET. *)
Definition oidc_call (identityToken verifyOpts : JsVal) (c : Call) : Prop :=
  match c with
  | JwtVerify t o => t = identityToken /\ o = verifyOpts
  | Verify _ accessToken refreshToken _ =>
      accessToken = JUndefined /\ refreshToken = JUndefined
  | OAuth2Get _ _ => False
  end.

(** The program throws at once. *)
Definition throws {A : Type} (p : Prog A) : bool :=
  match p with Throw _ => true | _ => false end.

Definition is_hex_digit (c : ascii) : bool :=
  let n := nat_of_ascii c in
  ((48 <=? n) && (n <=? 57) || (97 <=? n) && (n <=? 102))%nat.

Fixpoint all_chars (p : ascii -> bool) (s : string) : bool :=
  match s with
  | EmptyString => true
  | String c r => p c && all_chars p r
  end.

(** ** More test doubles *)

(** The error document of the provider, and the one of the tests, which
    has no [meta]. *)
Definition providerError : string :=
  "{" +:+ quoted "meta" +:+ ":{"
  +:+ quoted "error_type" +:+ ":" +:+ quoted "OAuthAccessTokenException" +:+ ","
  +:+ quoted "code" +:+ ":400,"
  +:+ quoted "error_message" +:+ ":" +:+ quoted "The access_token provided is invalid."
  +:+ "}}".

Definition providerError_json : JsVal :=
  obj [("meta", obj [("error_type", JStr "OAuthAccessTokenException");
                     ("code", JNum 400);
                     ("error_message", JStr "The access_token provided is invalid.")])].

Definition testError : string :=
  "{" +:+ quoted "error" +:+ ":{"
  +:+ quoted "message" +:+ ":" +:+ quoted "MESSAGE" +:+ ","
  +:+ quoted "code" +:+ ":" +:+ quoted "CODE" +:+ "}}".

Definition testError_json : JsVal :=
  obj [("error", obj [("message", JStr "MESSAGE"); ("code", JStr "CODE")])].

(** The user data a client sends with its first sign-in, as text. *)
Definition fakeUser : string :=
  "{" +:+ quoted "firstName" +:+ ":" +:+ quoted "Eugene" +:+ ","
  +:+ quoted "lastName" +:+ ":" +:+ quoted "Obrezkov" +:+ "}".

Definition fakeUser_json : JsVal :=
  obj [("firstName", JStr "Eugene"); ("lastName", JStr "Obrezkov")].

(** An engine that knows these documents too. *)
Definition stub_runtime2 : Runtime := {|
  JSON_parse := fun s =>
    if String.eqb s providerError then inl providerError_json
    else if String.eqb s testError then inl testError_json
    else if String.eqb s fakeUser then inl fakeUser_json
    else if String.eqb s "null" then inl JNull
    else if String.eqb s "[]" then inl (JArr [])
    else JSON_parse (Runtime := stub_runtime) s;
  JSON_stringify := JSON_stringify (Runtime := stub_runtime)
|}.

(** Option objects of a caller: no secret; the proof switched off; the
    proof "switched off" with a string. *)
Definition bare_options : gmap string JsVal := {[ "clientID" := JStr "123" ]}.

Definition bare_heap : Heap := {[ 0%nat := bare_options ]}.







Definition secret_only_options : gmap string JsVal := {[ "clientSecret" := JStr "123" ]}.

Definition off_secret_heap : Heap := {[ 0%nat := secret_only_options ]}.

(** A first sign-in: the identity token and the user's name as JSON text;
    and a request that has the identity token in its headers only. *)
Definition named_request : Request :=
  {| body := obj [("id_token", JStr "id_token"); ("user", JStr fakeUser)];
     query := JUndefined;
     headers := JUndefined |}.


(** A [done] that throws when it is handed a profile. *)
Definition picky_done (error profile : JsVal) : Prog (JsVal * JsVal) :=
  if truthy profile
  then Throw (JErr "Error" (JStr "no profile wanted") JUndefined)
  else Ret (error, profile).

(** * Properties *)

(** ** Values and request fields *)



Lemma truthy_not_nullish (v : JsVal) : truthy v = true -> is_nullish v = false.
Proof. destruct v; (discriminate || reflexivity). Qed.

(** ** Programs *)

Lemma ForallCalls_bind {A B : Type} (P : Call -> Prop) (p : Prog A) (f : A -> Prog B) :
  ForallCalls P p -> (forall a, ForallCalls P (f a)) -> ForallCalls P (bind p f).
Proof.
  intros Hp Hf. induction Hp as [a | e | c k Hc Hk IH]; cbn.
  - apply Hf.
  - constructor.
  - constructor; [exact Hc | exact IH].
Qed.

Lemma ForallCalls_try_catch {A : Type} (P : Call -> Prop) (p : Prog A)
    (h : JsVal -> Prog A) :
  ForallCalls P p -> (forall e, ForallCalls P (h e)) -> ForallCalls P (try_catch p h).
Proof.
  intros Hp Hh. destruct Hp; cbn; [constructor | apply Hh | constructor; assumption].
Qed.

Lemma ForallCalls_member (P : Call -> Prop) (v : JsVal) (k : string) :
  ForallCalls P (member v k).
Proof. unfold member. destruct (is_nullish v); constructor. Qed.

Lemma ForallCalls_assign (P : Call -> Prop) (v : JsVal) (k : string) (x : JsVal) :
  ForallCalls P (assign v k x).
Proof. destruct v; constructor. Qed.

Lemma ForallCalls_parse {rt : Runtime} (P : Call -> Prop) (v : JsVal) :
  ForallCalls P (parse v).
Proof. unfold parse. destruct (JSON_parse (to_string v)); constructor. Qed.

Lemma ForallCalls_createHmac (P : Call -> Prop) (key : JsVal) (data : string) :
  ForallCalls P (createHmac_sha256_hex key data).
Proof. destruct key; constructor. Qed.

Create HintDb calls.
#[local] Hint Resolve ForallCalls_member ForallCalls_assign ForallCalls_parse
  ForallCalls_createHmac : calls.
#[local] Hint Constructors ForallCalls : calls.

Ltac calls_step :=
  first [ apply ForallCalls_bind; [solve [auto with calls] | intros ?]
        | apply ForallCalls_try_catch; [| intros ?] ].

Lemma ForallCalls_profile_of_body {rt : Runtime} (P : Call -> Prop) (body : JsVal) :
  ForallCalls P (profile_of_body body).
Proof. unfold profile_of_body. repeat calls_step. constructor. Qed.

Lemma ForallCalls_oauth2_callback {rt : Runtime} {A : Type} (P : Call -> Prop)
    (done : JsVal -> JsVal -> Prog A) (args : list JsVal) :
  (forall e p, ForallCalls P (done e p)) -> ForallCalls P (oauth2_callback done args).
Proof.
  intros Hdone. unfold oauth2_callback.
  destruct (truthy (arg 0 args)).
  - repeat calls_step; apply Hdone.
  - apply ForallCalls_try_catch; [| intros ?; apply Hdone].
    apply ForallCalls_bind; [apply ForallCalls_profile_of_body | intros ?; apply Hdone].
Qed.

(** ** Missing credential *)



(** ** Token extraction *)










(** ** The integrity proof *)

Lemma hex_digit_unreserved (d : N) : unreserved (Sha256.hex_digit d) = true.
Proof.
  destruct d as [|p]; [reflexivity|].
  do 5 (try (destruct p as [p|p|]; try reflexivity)).
Qed.

(** A hex digest needs no escaping. *)
Lemma encodeURIComponent_hex (bs : list N) :
  encodeURIComponent (Sha256.hex bs) = Sha256.hex bs.
Proof.
  induction bs as [|b bs IH]; [reflexivity|].
  cbn [Sha256.hex encodeURIComponent].
  rewrite !hex_digit_unreserved, IH. reflexivity.
Qed.



(** The signature the tests expect for the secret '123' and the token
    'accessToken'. *)
Example proof_signature_of_the_tests :
  proof_signature "123" "accessToken"
  = "7393bd6533bae39c66e720280eeb57298cfd3b7649ff63eaa76d02da70ad8d45".
Proof. vm_compute. reflexivity. Qed.


(** ** The completion callback *)

(** C4, at the invocation the claim fails on: an error argument that is
    not [null] but falsy ([false]; likewise [undefined], [0] and the empty
    string) is not reported as an error; the user decides. *)
Lemma falsy_error_is_not_an_error :
  ~ (forall error user info : JsVal,
       error <> JNull -> verified error user info = Error error).
Proof.
  intros C.
  specialize (C (JBool false) (JStr "user") JUndefined ltac:(discriminate)).
  discriminate C.
Qed.

(** C4, amended.  A truthy error argument gives the [error] outcome with
    that error; a falsy error ([null] among them) with a falsy user gives
    [fail] with [info] unchanged; a falsy error with a truthy user gives
    [success] with [user] and [info] unchanged.  The three cases exclude one
    another and cover every invocation, and the callback returns that one
    outcome without calling anything. *)
Theorem verified_outcome (error user info : JsVal) :
  (truthy error = true -> verified error user info = Error error)
  /\ (truthy error = false -> truthy user = false ->
      verified error user info = Fail info)
  /\ (truthy error = false -> truthy user = true ->
      verified error user info = Success user info)
  /\ (verified JNull user info = if truthy user then Success user info else Fail info)
  /\ ((truthy error = true /\ verified error user info = Error error)
      \/ (truthy error = false /\ truthy user = false
          /\ verified error user info = Fail info)
      \/ (truthy error = false /\ truthy user = true
          /\ verified error user info = Success user info))
  /\ (forall env, run env (verified_callback [error; user; info])
                  = ([], Normal (verified error user info))).
Proof.
  unfold verified.
  repeat split.
  - intros ->. reflexivity.
  - intros -> ->. reflexivity.
  - intros -> ->. reflexivity.
  - cbn. destruct (truthy user); reflexivity.
  - destruct (truthy error); [left; auto|].
    destruct (truthy user); cbn; [right; right | right; left]; auto.
Qed.

Lemma verified_outcome_witness :
  verified JNull (JBool false) (obj [("info", JStr "foo")])
  = Fail (obj [("info", JStr "foo")])
  /\ verified JNull (obj [("id", JStr "1234567")]) (obj [("info", JStr "foo")])
     = Success (obj [("id", JStr "1234567")]) (obj [("info", JStr "foo")])
  /\ verified (JErr "Error" (JStr "ERROR") JUndefined) JUndefined JUndefined
     = Error (JErr "Error" (JStr "ERROR") JUndefined).
Proof.
  split; [| split].
  - exact (proj1 (proj2 (verified_outcome JNull (JBool false) (obj [("info", JStr "foo")])))
             eq_refl eq_refl).
  - exact (proj1 (proj2 (proj2 (verified_outcome JNull (obj [("id", JStr "1234567")])
                                  (obj [("info", JStr "foo")])))) eq_refl eq_refl).
  - exact (proj1 (verified_outcome (JErr "Error" (JStr "ERROR") JUndefined)
                    JUndefined JUndefined) eq_refl).
Defined.

(** ** The OAuth2 normalizer *)

Lemma member_defined (v : JsVal) (k : string) :
  is_nullish v = false -> member v k = Ret (get_own v k).
Proof. intros E. unfold member. rewrite E. reflexivity. Qed.

(** Only an object has a [data] member to read an [id] from. *)
Lemma data_member_object (json : JsVal) :
  is_nullish json = false -> is_nullish (get_own json "data") = false ->
  exists o, json = JObj o.
Proof.
  destruct json as [| | b | n | s | items | o | nm msg oe]; try discriminate; eauto.
Qed.

Lemma profile_of_body_object {rt : Runtime} (body : JsVal) (o : gmap string JsVal)
    (data : JsVal) :
  JSON_parse (to_string body) = inl (JObj o) ->
  o !! "data" = Some data ->
  is_nullish data = false ->
  profile_of_body body = Ret (normalized body o data).
Proof.
  intros Hp Hd Hn. unfold profile_of_body, parse. rewrite Hp. cbn [bind].
  rewrite member_defined by reflexivity. cbn [bind get_own].
  rewrite Hd. cbn [default].
  rewrite (member_defined data) by exact Hn. cbn [bind assign].
  rewrite member_defined by reflexivity. cbn [bind get_own].
  rewrite lookup_insert_eq. cbn [default].
  rewrite member_defined by reflexivity. cbn [bind get_own].
  rewrite lookup_insert_ne by discriminate. rewrite Hd. cbn [default].
  rewrite !(member_defined data) by exact Hn. cbn [bind].
  reflexivity.
Qed.

Lemma profile_of_body_returns {rt : Runtime} (body prof : JsVal) :
  profile_of_body body = Ret prof ->
  exists o data,
    JSON_parse (to_string body) = inl (JObj o)
    /\ o !! "data" = Some data
    /\ is_nullish data = false
    /\ prof = normalized body o data.
Proof.
  intros E.
  assert (Hshape : exists json, JSON_parse (to_string body) = inl json
                                /\ is_nullish json = false
                                /\ is_nullish (get_own json "data") = false).
  { revert E. unfold profile_of_body, parse.
    destruct (JSON_parse (to_string body)) as [json | msg]; [|discriminate].
    cbn [bind]. unfold member at 1.
    destruct (is_nullish json) eqn:Ej; [discriminate|]. cbn [bind].
    unfold member at 1.
    destruct (is_nullish (get_own json "data")) eqn:Ed; [discriminate|].
    eauto. }
  destruct Hshape as (json & Hp & Hj & Hd).
  destruct (data_member_object json Hj Hd) as [o ->].
  cbn [get_own] in Hd.
  destruct (o !! "data") as [data|] eqn:Eo; [|discriminate].
  cbn [default] in Hd.
  exists o, data. repeat split; try assumption.
  rewrite (profile_of_body_object body o data Hp Eo Hd) in E.
  injection E as <-. reflexivity.
Qed.

Lemma js_or_same_string (s : string) : js_or (JStr s) (JStr "") = JStr s.
Proof. destruct s; reflexivity. Qed.

Lemma js_or_defined (v : JsVal) : defined (js_or v (JStr "")).
Proof.
  unfold defined, js_or. destruct (truthy v) eqn:E; [|reflexivity].
  apply truthy_not_nullish. exact E.
Qed.

(** C5.  For a response body that parses to a document whose [data]
    object has [id], [username], [first_name], [last_name] and
    [profile_picture] (the two names being strings), the OAuth2 callback of
    both Instagram strategies calls [done] with no error and a profile with
    provider "instagram", [id] the [data.id], [username] the
    [data.username], no emails, one photo whose value is
    [data.profile_picture], [name.familyName] the [data.last_name],
    [name.givenName] the [data.first_name], [_raw] the body as received and
    [_json] the parsed document: the object [JSON.parse] returned, every
    property of it as parsed, with the [id] that the normalizer has written
    to its top level by then.  For a
    body that is not JSON, [done] is called with the [SyntaxError] that
    [JSON.parse] threw and with no profile.  [userProfile] of either
    strategy gives this callback to the GET of the profile URL. *)
Theorem oauth2_profile_normalized {rt : Runtime} (body : JsVal) :
  (forall (st : InstagramToken.Strategy) (accessToken url : JsVal),
     InstagramToken.profile_request_url st accessToken = Ret url ->
     InstagramToken.userProfile st accessToken observe
     = Vis (OAuth2Get url accessToken) (oauth2_callback observe))
  /\
  (forall (st : InstagramLegacy.Strategy) (accessToken : JsVal),
     InstagramLegacy.userProfile st accessToken observe
     = Vis (OAuth2Get (InstagramLegacy._profileURL st) accessToken)
         (oauth2_callback observe))
  /\
  (forall (o data : gmap string JsVal) (id username picture : JsVal)
          (first_name last_name : string),
     JSON_parse (to_string body) = inl (JObj o) ->
     o !! "data" = Some (JObj data) ->
     data !! "id" = Some id ->
     data !! "username" = Some username ->
     data !! "first_name" = Some (JStr first_name) ->
     data !! "last_name" = Some (JStr last_name) ->
     data !! "profile_picture" = Some picture ->
     exists profile,
       oauth2_callback observe [JNull; body] = Ret (JNull, profile)
       /\ get_own profile "provider" = JStr "instagram"
       /\ get_own profile "id" = id
       /\ get_own profile "username" = username
       /\ get_own profile "emails" = JArr []
       /\ get_own profile "photos" = JArr [obj [("value", picture)]]
       /\ get_own (get_own profile "name") "familyName" = JStr last_name
       /\ get_own (get_own profile "name") "givenName" = JStr first_name
       /\ get_own profile "_raw" = body
       /\ get_own profile "_json" = JObj (<["id" := id]> o)
       /\ get_own (get_own profile "_json") "data" = JObj data
       /\ (forall k, k <> "id" ->
                     get_own (get_own profile "_json") k = get_own (JObj o) k))
  /\
  (forall message : string,
     JSON_parse (to_string body) = inr message ->
     profile_of_body body = Throw (SyntaxError message)
     /\ oauth2_callback observe [JNull; body] = Ret (SyntaxError message, JUndefined)).
Proof.
  split; [| split; [| split]].
  - intros st accessToken url E. unfold InstagramToken.userProfile. rewrite E. reflexivity.
  - reflexivity.
  - intros o data id username picture first_name last_name Hp Hd Hid Hu Hf Hl Hpic.
    exists (normalized body o (JObj data)).
    assert (E : profile_of_body body = Ret (normalized body o (JObj data)))
      by (apply profile_of_body_object; auto).
    split.
    { unfold oauth2_callback. cbn [arg lookup]. change (truthy (arg 0 [JNull; body])) with false.
      cbn iota. change (arg 1 [JNull; body]) with body. rewrite E. reflexivity. }
    assert (Gid : get_own (JObj data) "id" = id) by (cbn; rewrite Hid; reflexivity).
    assert (Gu : get_own (JObj data) "username" = username)
      by (cbn; rewrite Hu; reflexivity).
    assert (Gf : get_own (JObj data) "first_name" = JStr first_name)
      by (cbn; rewrite Hf; reflexivity).
    assert (Gl : get_own (JObj data) "last_name" = JStr last_name)
      by (cbn; rewrite Hl; reflexivity).
    assert (Gp : get_own (JObj data) "profile_picture" = picture)
      by (cbn; rewrite Hpic; reflexivity).
    unfold normalized. rewrite Gid, Gu, Gf, Gl, Gp, !js_or_same_string.
    repeat split; try reflexivity.
    + change (get_own (JObj (<["id" := id]> o)) "data" = JObj data).
      cbn [get_own]. rewrite lookup_insert_ne by discriminate. rewrite Hd. reflexivity.
    + intros k Hk. change (get_own (JObj (<["id" := id]> o)) k = get_own (JObj o) k).
      cbn [get_own]. rewrite lookup_insert_ne by congruence. reflexivity.
  - intros message Hp.
    assert (E : profile_of_body body = Throw (SyntaxError message)).
    { unfold profile_of_body, parse. rewrite Hp. reflexivity. }
    split; [exact E|].
    unfold oauth2_callback. change (truthy (arg 0 [JNull; body])) with false.
    cbn iota. change (arg 1 [JNull; body]) with body. rewrite E. reflexivity.
Qed.

Lemma oauth2_profile_normalized_witness :
  (exists profile,
     oauth2_callback (rt := stub_runtime) observe [JNull; JStr fakeProfile]
     = Ret (JNull, profile)
     /\ get_own profile "provider" = JStr "instagram"
     /\ get_own profile "id" = JStr "1234567"
     /\ get_own profile "username" = JStr "ghaiklor"
     /\ get_own profile "emails" = JArr []
     /\ get_own profile "photos" = JArr [obj [("value", JStr picture_url)]]
     /\ get_own (get_own profile "name") "familyName" = JStr "Obrezkov"
     /\ get_own (get_own profile "name") "givenName" = JStr "Eugene"
     /\ get_own profile "_raw" = JStr fakeProfile
     /\ get_own profile "_json" = JObj (<["id" := JStr "1234567"]> fakeProfile_json)
     /\ get_own (get_own profile "_json") "data" = JObj fakeProfile_data
     /\ (forall k, k <> "id" ->
                   get_own (get_own profile "_json") k = get_own (JObj fakeProfile_json) k))
  /\ oauth2_callback (rt := stub_runtime) observe [JNull; JStr "not a JSON"]
     = Ret (SyntaxError "Unexpected token in JSON at position 0", JUndefined).
Proof.
  split.
  - apply (proj1 (proj2 (proj2 (oauth2_profile_normalized (rt := stub_runtime)
                                  (JStr fakeProfile))))
             fakeProfile_json fakeProfile_data (JStr "1234567") (JStr "ghaiklor")
             (JStr picture_url) "Eugene" "Obrezkov"); reflexivity.
  - apply (proj2 (proj2 (proj2 (oauth2_profile_normalized (rt := stub_runtime)
                                  (JStr "not a JSON"))))
             "Unexpected token in JSON at position 0"); reflexivity.
Defined.

(** ** Defaults of the profile *)

(** C9, at the payload the claim fails on: a document with [data.id] and
    nothing else gives a profile whose [username] and whose photo value are
    [undefined]; the normalizer has no default for them. *)
Lemma absent_username_is_undefined :
  exists profile,
    profile_of_body (rt := stub_runtime) (JStr bareProfile) = Ret profile
    /\ get_own profile "username" = JUndefined
    /\ get_own profile "photos" = JArr [obj [("value", JUndefined)]].
Proof.
  eexists. split; [vm_compute; reflexivity|]. split; reflexivity.
Qed.

(** C9, amended.  A profile of the OAuth2 normalizer has [id] equal to
    [data.id], [username] equal to [data.username] and one photo whose value
    is [data.profile_picture], each as the payload has it ([undefined] when
    the payload lacks it); [emails] is the empty list; [displayName],
    [name.familyName] and [name.givenName] are never [null] or [undefined],
    and are the empty string when the payload field is missing or falsy.
    A profile of the OIDC normalizer has [id] equal to the [sub] claim and
    one email whose value is the [email] claim, each as the claims have it;
    it has no [username] and no [displayName], and no [name] unless the
    user supplied one. *)
Theorem profile_defaults {rt : Runtime} :
  (forall body profile : JsVal,
     profile_of_body body = Ret profile ->
     exists (o : gmap string JsVal) (data : JsVal),
       JSON_parse (to_string body) = inl (JObj o)
       /\ o !! "data" = Some data
       /\ get_own profile "id" = get_own data "id"
       /\ get_own profile "username" = get_own data "username"
       /\ get_own profile "photos" = JArr [obj [("value", get_own data "profile_picture")]]
       /\ get_own profile "emails" = JArr []
       /\ defined (get_own profile "displayName")
       /\ defined (get_own (get_own profile "name") "familyName")
       /\ defined (get_own (get_own profile "name") "givenName")
       /\ (truthy (get_own data "full_name") = false ->
           get_own profile "displayName" = JStr "")
       /\ (truthy (get_own data "last_name") = false ->
           get_own (get_own profile "name") "familyName" = JStr "")
       /\ (truthy (get_own data "first_name") = false ->
           get_own (get_own profile "name") "givenName" = JStr ""))
  /\
  (forall claims user profile : JsVal,
     AppleToken.profile_of_claims claims user = Ret profile ->
     get_own profile "id" = get_own claims "sub"
     /\ get_own profile "emails" = JArr [obj [("value", get_own claims "email")]]
     /\ get_own profile "username" = JUndefined
     /\ get_own profile "displayName" = JUndefined
     /\ (AppleToken.supplies_name user = false -> get_own profile "name" = JUndefined)).
Proof.
  split.
  - intros body profile E.
    apply profile_of_body_returns in E as (o & data & Hp & Hd & Hn & ->).
    exists o, data. unfold normalized.
    repeat split; try assumption; try reflexivity; try apply js_or_defined.
    + intros Hf. change (js_or (get_own data "full_name") (JStr "") = JStr "").
      unfold js_or. rewrite Hf. reflexivity.
    + intros Hf. change (js_or (get_own data "last_name") (JStr "") = JStr "").
      unfold js_or. rewrite Hf. reflexivity.
    + intros Hf. change (js_or (get_own data "first_name") (JStr "") = JStr "").
      unfold js_or. rewrite Hf. reflexivity.
  - intros claims user profile. unfold AppleToken.profile_of_claims, member.
    destruct (is_nullish claims); [discriminate|]. cbn [bind].
    intros E. injection E as <-.
    destruct (AppleToken.supplies_name user); repeat split; try reflexivity.
    discriminate.
Qed.

Lemma profile_defaults_witness :
  exists profile,
    profile_of_body (rt := stub_runtime) (JStr bareProfile) = Ret profile
    /\ get_own profile "id" = JStr "1234567"
    /\ get_own profile "displayName" = JStr ""
    /\ get_own (get_own profile "name") "familyName" = JStr ""
    /\ get_own (get_own profile "name") "givenName" = JStr ""
    /\ get_own profile "emails" = JArr [].
Proof.
  exists (normalized (JStr bareProfile) bareProfile_json (obj [("id", JStr "1234567")])).
  assert (E : profile_of_body (rt := stub_runtime) (JStr bareProfile)
              = Ret (normalized (JStr bareProfile) bareProfile_json
                       (obj [("id", JStr "1234567")])))
    by (apply profile_of_body_object; reflexivity).
  split; [exact E|].
  destruct (proj1 (profile_defaults (rt := stub_runtime)) _ _ E)
    as (o & data & Hp & Hd & Hid & _ & _ & Hemails & _ & _ & _ & Hdn & Hfn & Hgn).
  injection Hp as <-. injection Hd as <-.
  split; [exact Hid|].
  split; [apply Hdn; reflexivity|].
  split; [apply Hfn; reflexivity|].
  split; [apply Hgn; reflexivity | exact Hemails].
Defined.

(** ** The OIDC strategy *)

Lemma parse_user_returns {rt : Runtime} (user : JsVal) :
  exists user', AppleToken.parse_user user = Ret user'.
Proof.
  unfold AppleToken.parse_user, parse.
  destruct (is_string user); [|eauto].
  destruct (JSON_parse (to_string user)); cbn; eauto.
Qed.

(** With a token in the request, [authenticate] asks [jwt.verify] first. *)
Lemma apple_authenticate_verifies {rt : Runtime} (st : AppleToken.Strategy) (req : Request)
    (user : JsVal) :
  truthy (AppleToken.identityToken_of st req) = true ->
  AppleToken.parse_user (AppleToken.user_of req) = Ret user ->
  AppleToken.authenticate st req
  = Vis (JwtVerify (AppleToken.identityToken_of st req) (AppleToken.verifyOpts st))
      (AppleToken.jwt_callback user (AppleToken.dispatch st req)).
Proof.
  intros Ht Hu. unfold AppleToken.authenticate. rewrite Ht, Hu. reflexivity.
Qed.

(** C6.  The identity token is checked by [jwt.verify] against the
    configured client id as audience, the issuer "https://appleid.apple.com"
    and the algorithm RS256.  Whenever that check reports an error (whatever
    made it fail), the fetcher calls [done] with an [InternalOAuthError]
    "Failed to validate identity token" that wraps the error and with no
    profile, [authenticate] ends in the [error] outcome with it, and the
    only call made is the one to [jwt.verify]: the verify callback of the
    application is not invoked. *)
Theorem failed_verification_is_an_error {rt : Runtime} (st : AppleToken.Strategy)
    (req : Request) (env : Call -> list JsVal) :
  let identityToken := AppleToken.identityToken_of st req in
  let call := JwtVerify identityToken (AppleToken.verifyOpts st) in
  let err := arg 0 (env call) in
  let wrapped := InternalOAuthError (JStr "Failed to validate identity token") err in
  truthy identityToken = true ->
  truthy err = true ->
  get_own (AppleToken.verifyOpts st) "audience" = AppleToken._clientID st
  /\ get_own (AppleToken.verifyOpts st) "issuer" = JStr "https://appleid.apple.com"
  /\ get_own (AppleToken.verifyOpts st) "algorithms" = JArr [JStr "RS256"]
  /\ (forall user, AppleToken.jwt_callback user observe (env call)
                   = Ret (wrapped, JUndefined))
  /\ get_own wrapped "oauthError" = err
  /\ run env (AppleToken.authenticate st req) = ([call], Normal (Error wrapped))
  /\ is_verify_call call = false.
Proof.
  intros identityToken call err wrapped Ht He.
  repeat split.
  - intros user. unfold AppleToken.jwt_callback. fold err. rewrite He. reflexivity.
  - destruct (parse_user_returns (AppleToken.user_of req)) as [user Hu].
    rewrite (apple_authenticate_verifies st req user Ht Hu).
    cbn [run]. fold identityToken call.
    unfold AppleToken.jwt_callback. fold err. rewrite He.
    unfold AppleToken.dispatch. reflexivity.
Qed.

Lemma failed_verification_is_an_error_witness :
  run (test_env [JErr "JsonWebTokenError" (JStr "jwt audience invalid. expected: 123")
                   JUndefined])
    (AppleToken.authenticate (rt := stub_runtime) test_apple apple_request)
  = ([JwtVerify (JStr "id_token") (AppleToken.verifyOpts test_apple)],
     Normal (Error (InternalOAuthError (JStr "Failed to validate identity token")
                      (JErr "JsonWebTokenError"
                         (JStr "jwt audience invalid. expected: 123") JUndefined)))).
Proof.
  apply (failed_verification_is_an_error (rt := stub_runtime) test_apple apple_request
           (test_env [JErr "JsonWebTokenError"
                        (JStr "jwt audience invalid. expected: 123") JUndefined]));
    reflexivity.
Defined.

Lemma strict_eq_str_true (v : JsVal) (lit : string) :
  strict_eq_str v lit = true <-> v = JStr lit.
Proof.
  destruct v; cbn; split; try discriminate.
  - intros E. apply String.eqb_eq in E. congruence.
  - intros E. injection E as ->. apply String.eqb_refl.
Qed.

Lemma supplies_name_present (user : JsVal) :
  AppleToken.supplies_name user = true ->
  truthy user = true
  /\ (truthy (get_own user "lastName") = true \/ truthy (get_own user "firstName") = true).
Proof.
  unfold AppleToken.supplies_name, js_and, js_or.
  destruct (truthy user) eqn:Eu; [|intros E; rewrite Eu in E; discriminate].
  destruct (truthy (get_own user "lastName")) eqn:El; auto.
Qed.

Lemma supplies_name_absent (user : JsVal) :
  truthy (get_own user "lastName") = false ->
  truthy (get_own user "firstName") = false ->
  AppleToken.supplies_name user = false.
Proof.
  intros El Ef. unfold AppleToken.supplies_name, js_and, js_or.
  rewrite El. destruct (truthy user) eqn:Eu; assumption.
Qed.

(** C7.  From verified claims the OIDC normalizer builds a profile with
    [id] the [sub] claim and one email whose value is the [email] claim;
    [emailVerified] is [true] exactly when the [email_verified] claim is the
    string "true", and [isPrivateEmail] likewise for [is_private_email] (the
    boolean [true] does not count).  The profile has a [name] exactly when
    the user data is truthy and its [lastName] or [firstName] is; then
    [familyName] and [givenName] are set from the ones that are.  When
    neither is present the profile has no [name] property at all. *)
Theorem oidc_profile_normalized {rt : Runtime} (claims : gmap string JsVal) (user : JsVal) :
  exists profile : gmap string JsVal,
    AppleToken.profile_of_claims (JObj claims) user = Ret (JObj profile)
    /\ AppleToken.jwt_callback user observe [JNull; JObj claims]
       = Ret (JNull, JObj profile)
    /\ profile !! "provider" = Some (JStr "apple")
    /\ profile !! "id" = Some (opt claims "sub")
    /\ profile !! "emails" = Some (JArr [obj [("value", opt claims "email")]])
    /\ (exists b, profile !! "emailVerified" = Some (JBool b)
                  /\ (b = true <-> opt claims "email_verified" = JStr "true"))
    /\ (exists b, profile !! "isPrivateEmail" = Some (JBool b)
                  /\ (b = true <-> opt claims "is_private_email" = JStr "true"))
    /\ (is_Some (profile !! "name") <-> AppleToken.supplies_name user = true)
    /\ (is_Some (profile !! "name") ->
        truthy (get_own user "lastName") = true
        \/ truthy (get_own user "firstName") = true)
    /\ (truthy (get_own user "lastName") = false ->
        truthy (get_own user "firstName") = false ->
        profile !! "name" = None)
    /\ (AppleToken.supplies_name user = true ->
        exists name : gmap string JsVal,
          profile !! "name" = Some (JObj name)
          /\ name !! "familyName"
             = (if truthy (get_own user "lastName")
                then Some (get_own user "lastName") else None)
          /\ name !! "givenName"
             = (if truthy (get_own user "firstName")
                then Some (get_own user "firstName") else None)).
Proof.
  unfold AppleToken.jwt_callback, AppleToken.profile_of_claims.
  change (truthy (arg 0 [JNull; JObj claims])) with false. cbn iota.
  change (arg 1 [JNull; JObj claims]) with (JObj claims).
  rewrite !member_defined by reflexivity. cbn [bind get_own]. fold (opt claims "sub").
  fold (opt claims "email") (opt claims "email_verified") (opt claims "is_private_email").
  destruct (AppleToken.supplies_name user) eqn:Es.
  - eexists. split; [reflexivity|]. split; [reflexivity|].
    split; [reflexivity|]. split; [reflexivity|]. split; [reflexivity|].
    split; [eexists; split; [reflexivity | apply strict_eq_str_true]|].
    split; [eexists; split; [reflexivity | apply strict_eq_str_true]|].
    split; [split; [reflexivity | intros _; rewrite lookup_insert_eq; eauto]|].
    split; [intros _; apply (supplies_name_present user Es)|].
    split.
    + intros El Ef. rewrite (supplies_name_absent user El Ef) in Es. discriminate.
    + intros _. unfold AppleToken.name_of. eexists.
      split; [apply lookup_insert_eq|].
      destruct (truthy (get_own user "lastName")), (truthy (get_own user "firstName"));
        split; reflexivity.
  - eexists. split; [reflexivity|]. split; [reflexivity|].
    split; [reflexivity|]. split; [reflexivity|]. split; [reflexivity|].
    split; [eexists; split; [reflexivity | apply strict_eq_str_true]|].
    split; [eexists; split; [reflexivity | apply strict_eq_str_true]|].
    split; [split; [intros [x Hx]; discriminate Hx | discriminate]|].
    split; [intros [x Hx]; discriminate Hx|].
    split; [reflexivity | discriminate].
Qed.

Lemma oidc_profile_normalized_witness :
  exists profile : gmap string JsVal,
    AppleToken.profile_of_claims (rt := stub_runtime) fakeClaims
      (obj [("firstName", JStr "Eugene")]) = Ret (JObj profile)
    /\ profile !! "id" = Some (JStr "001234.5678")
    /\ profile !! "emailVerified" = Some (JBool true)
    /\ profile !! "isPrivateEmail" = Some (JBool false)
    /\ profile !! "name" = Some (obj [("givenName", JStr "Eugene")]).
Proof.
  destruct (oidc_profile_normalized (rt := stub_runtime)
              (list_to_map [("iss", JStr "https://appleid.apple.com");
                            ("aud", JStr "123");
                            ("sub", JStr "001234.5678");
                            ("email", JStr "eugene@privaterelay.appleid.com");
                            ("email_verified", JStr "true");
                            ("is_private_email", JBool true)])
              (obj [("firstName", JStr "Eugene")]))
    as (profile & E & _).
  exists profile. split; [exact E|].
  change (AppleToken.profile_of_claims (rt := stub_runtime) fakeClaims
            (obj [("firstName", JStr "Eugene")]) = Ret (JObj profile)) in E.
  injection E as <-. repeat split; reflexivity.
Defined.

(** A string has no [lastName] and no [firstName]. *)
Lemma string_supplies_no_name (s : string) : AppleToken.supplies_name (JStr s) = false.
Proof. destruct s; reflexivity. Qed.

Lemma profile_of_claims_without_name {rt : Runtime} (claims : gmap string JsVal)
    (user : JsVal) :
  AppleToken.supplies_name user = false ->
  exists profile : gmap string JsVal,
    AppleToken.profile_of_claims (JObj claims) user = Ret (JObj profile)
    /\ profile !! "name" = None.
Proof.
  intros Hs. unfold AppleToken.profile_of_claims.
  rewrite !member_defined by reflexivity. cbn [bind]. rewrite Hs.
  eexists. split; reflexivity.
Qed.

(** C8.  When the [user] field of the request is a string that
    [JSON.parse] rejects, the failure is caught and [user] stays that
    string; a string supplies no name, so the callback of [jwt.verify] does
    with it what it does with a missing [user], argument list by argument
    list, and the profile built has no [name] property.  [authenticate]
    goes on to [jwt.verify], and under every environment its run is the run
    of the same request handled with [user] undefined: the fragment is the
    cause of no outcome. *)
Theorem malformed_user_is_ignored {rt : Runtime} (st : AppleToken.Strategy) (req : Request)
    (fragment message : string) :
  let identityToken := AppleToken.identityToken_of st req in
  let call := JwtVerify identityToken (AppleToken.verifyOpts st) in
  truthy identityToken = true ->
  AppleToken.user_of req = JStr fragment ->
  JSON_parse fragment = inr message ->
  AppleToken.parse_user (JStr fragment) = Ret (JStr fragment)
  /\ AppleToken.authenticate st req
     = Vis call (AppleToken.jwt_callback (JStr fragment) (AppleToken.dispatch st req))
  /\ (forall args,
        AppleToken.jwt_callback (JStr fragment) (AppleToken.dispatch st req) args
        = AppleToken.jwt_callback JUndefined (AppleToken.dispatch st req) args)
  /\ (forall claims : gmap string JsVal,
        exists profile : gmap string JsVal,
          AppleToken.profile_of_claims (JObj claims) (JStr fragment) = Ret (JObj profile)
          /\ profile !! "name" = None)
  /\ (forall env,
        run env (AppleToken.authenticate st req)
        = run env (Vis call (AppleToken.jwt_callback JUndefined
                               (AppleToken.dispatch st req)))).
Proof.
  intros identityToken call Ht Hu Hp.
  assert (Eu : AppleToken.parse_user (JStr fragment) = Ret (JStr fragment)).
  { unfold AppleToken.parse_user, parse. cbn [is_string to_string].
    rewrite Hp. reflexivity. }
  assert (Ea : AppleToken.authenticate st req
               = Vis call (AppleToken.jwt_callback (JStr fragment)
                             (AppleToken.dispatch st req))).
  { apply apple_authenticate_verifies; [exact Ht | rewrite Hu; exact Eu]. }
  assert (Ek : forall args,
             AppleToken.jwt_callback (JStr fragment) (AppleToken.dispatch st req) args
             = AppleToken.jwt_callback JUndefined (AppleToken.dispatch st req) args).
  { intros args. unfold AppleToken.jwt_callback, AppleToken.profile_of_claims.
    rewrite string_supplies_no_name. reflexivity. }
  split; [exact Eu|]. split; [exact Ea|]. split; [exact Ek|]. split.
  - intros claims. apply profile_of_claims_without_name, string_supplies_no_name.
  - intros env. rewrite Ea. cbn [run]. rewrite Ek. reflexivity.
Qed.

Lemma malformed_user_is_ignored_witness :
  AppleToken.authenticate (rt := stub_runtime) test_apple apple_request
  = Vis (JwtVerify (JStr "id_token") (AppleToken.verifyOpts test_apple))
      (AppleToken.jwt_callback (rt := stub_runtime) (JStr "{firstName:")
         (AppleToken.dispatch test_apple apple_request)).
Proof.
  apply (malformed_user_is_ignored (rt := stub_runtime) test_apple apple_request
           "{firstName:" "Unexpected token in JSON at position 0"); reflexivity.
Defined.

(** ** Construction *)

Lemma opt_absent (options : gmap string JsVal) (k : string) :
  options !! k = None -> truthy (opt options k) = false.
Proof. intros E. unfold opt. rewrite E. reflexivity. Qed.

Lemma set_default_written (k fallback : string) (options : gmap string JsVal) :
  set_default k fallback options !! k
  = Some (if truthy (opt options k) then opt options k else JStr fallback).
Proof. unfold set_default, js_or. apply lookup_insert_eq. Qed.

Lemma set_default_other (k fallback k' : string) (options : gmap string JsVal) :
  k <> k' -> set_default k fallback options !! k' = options !! k'.
Proof. intros Hne. unfold set_default. apply lookup_insert_ne. exact Hne. Qed.

Lemma set_default_kept (k fallback : string) (options : gmap string JsVal) :
  truthy (opt options k) = true -> set_default k fallback options = options.
Proof.
  intros Ht. unfold set_default, js_or. rewrite Ht.
  apply insert_id. unfold opt in *.
  destruct (options !! k); [reflexivity | discriminate].
Qed.

(** C10.  Constructing a strategy on the caller's options object writes
    into that object: a missing (or falsy) [authorizationURL] or [tokenURL]
    and, in lib/Strategy.js, [profileURL] becomes the provider's default
    URL, a truthy one keeps its value, every other property of the object
    keeps its value (in src/index.js [profileURL] among them), and every
    other object of the store is left as it is. *)
Theorem constructor_writes_default_urls (h : Heap) (l : nat)
    (options : gmap string JsVal) :
  h !! l = Some options ->
  (exists options',
     fst (InstagramToken.constructor h (Some l)) !! l = Some options'
     /\ (options !! "authorizationURL" = None ->
         options' !! "authorizationURL"
         = Some (JStr "https://api.instagram.com/oauth/authorize/"))
     /\ (options !! "tokenURL" = None ->
         options' !! "tokenURL"
         = Some (JStr "https://api.instagram.com/oauth/access_token"))
     /\ (forall k, truthy (opt options k) = true -> options' !! k = options !! k)
     /\ (forall k, k <> "authorizationURL" -> k <> "tokenURL" ->
                   options' !! k = options !! k)
     /\ (forall l', l' <> l ->
                    fst (InstagramToken.constructor h (Some l)) !! l' = h !! l'))
  /\
  (exists options',
     fst (InstagramLegacy.constructor h (Some l)) !! l = Some options'
     /\ (options !! "authorizationURL" = None ->
         options' !! "authorizationURL"
         = Some (JStr "https://api.instagram.com/oauth/authorize/"))
     /\ (options !! "tokenURL" = None ->
         options' !! "tokenURL"
         = Some (JStr "https://api.instagram.com/oauth/access_token"))
     /\ (options !! "profileURL" = None ->
         options' !! "profileURL"
         = Some (JStr "https://api.instagram.com/v1/users/self"))
     /\ (forall k, truthy (opt options k) = true -> options' !! k = options !! k)
     /\ (forall k, k <> "authorizationURL" -> k <> "tokenURL" -> k <> "profileURL" ->
                   options' !! k = options !! k)
     /\ (forall l', l' <> l ->
                    fst (InstagramLegacy.constructor h (Some l)) !! l' = h !! l')).
Proof.
  intros Hl.
  assert (Hkeep : forall (k fallback k' : string) (o : gmap string JsVal),
             truthy (opt o k') = true ->
             set_default k fallback o !! k' = o !! k').
  { intros k fallback k' o Ht. destruct (decide (k = k')) as [-> | Hne].
    - rewrite set_default_kept by exact Ht. reflexivity.
    - apply set_default_other. exact Hne. }
  split.
  - eexists. unfold InstagramToken.constructor. cbn [fst options_ref options_props].
    rewrite Hl. change (default ∅ (Some options)) with options.
    split; [apply lookup_insert_eq|]. split; [| split; [| split; [| split]]].
    + intros E. rewrite set_default_other by discriminate.
      rewrite set_default_written, (opt_absent _ _ E). reflexivity.
    + intros E. rewrite set_default_written.
      unfold opt at 1. rewrite set_default_other by discriminate.
      fold (opt options "tokenURL"). rewrite (opt_absent _ _ E). reflexivity.
    + intros k Ht. rewrite Hkeep; [apply Hkeep; exact Ht|].
      unfold opt. rewrite Hkeep by exact Ht. exact Ht.
    + intros k H1 H2. rewrite !set_default_other by congruence. reflexivity.
    + intros l' Hne. apply lookup_insert_ne. congruence.
  - eexists. unfold InstagramLegacy.constructor. cbn [fst options_ref options_props].
    rewrite Hl. change (default ∅ (Some options)) with options.
    split; [apply lookup_insert_eq|].
    split; [| split; [| split; [| split; [| split]]]].
    + intros E. rewrite !set_default_other by discriminate.
      rewrite set_default_written, (opt_absent _ _ E). reflexivity.
    + intros E. rewrite set_default_other by discriminate.
      rewrite set_default_written.
      unfold opt at 1. rewrite set_default_other by discriminate.
      fold (opt options "tokenURL"). rewrite (opt_absent _ _ E). reflexivity.
    + intros E. rewrite set_default_written.
      unfold opt at 1. rewrite !set_default_other by discriminate.
      fold (opt options "profileURL"). rewrite (opt_absent _ _ E). reflexivity.
    + intros k Ht.
      assert (H1 : truthy (opt (set_default "authorizationURL"
                                  "https://api.instagram.com/oauth/authorize/" options) k)
                   = true)
        by (unfold opt; rewrite Hkeep by exact Ht; exact Ht).
      assert (H2 : truthy (opt (set_default "tokenURL"
                                  "https://api.instagram.com/oauth/access_token"
                                  (set_default "authorizationURL"
                                     "https://api.instagram.com/oauth/authorize/"
                                     options)) k) = true).
      { unfold opt. rewrite Hkeep by exact H1. rewrite Hkeep by exact Ht. exact Ht. }
      rewrite Hkeep by exact H2. rewrite Hkeep by exact H1. apply Hkeep. exact Ht.
    + intros k H1 H2 H3. rewrite !set_default_other by congruence. reflexivity.
    + intros l' Hne. apply lookup_insert_ne. congruence.
Qed.

Lemma constructor_writes_default_urls_witness :
  exists options',
    fst (InstagramToken.constructor test_heap (Some 0%nat)) !! 0%nat = Some options'
    /\ options' !! "authorizationURL"
       = Some (JStr "https://api.instagram.com/oauth/authorize/")
    /\ options' !! "tokenURL"
       = Some (JStr "https://api.instagram.com/oauth/access_token")
    /\ options' !! "clientID" = Some (JStr "123")
    /\ options' !! "clientSecret" = Some (JStr "123").
Proof.
  destruct (proj1 (constructor_writes_default_urls test_heap 0%nat test_options eq_refl))
    as (options' & E & Ha & Ht & Hk & _).
  exists options'. split; [exact E|].
  split; [apply Ha; reflexivity|]. split; [apply Ht; reflexivity|].
  split; [rewrite Hk by reflexivity; reflexivity|].
  rewrite Hk by reflexivity. reflexivity.
Defined.

(** ** The scenarios of the tests *)

(** 'Should properly call _verify with req' of the earlier test file, on
    src/index.js: the token of the body reaches the GET and the verify
    callback, whose answer makes the outcome. *)
Example body_token_reaches_verify :
  exists url profile,
    run (test_env [JNull; JStr fakeProfile])
      (InstagramToken.authenticate (rt := stub_runtime) test_strategy body_request)
    = ([OAuth2Get url (JStr "access_token");
        Verify None (JStr "access_token") (JStr "refresh_token") profile],
       Normal (Success profile (obj [("info", JStr "foo")])))
    /\ get_own profile "id" = JStr "1234567".
Proof.
  eexists. eexists. split; [vm_compute; reflexivity | reflexivity].
Qed.

(** 'Should properly parse access_token' of the earlier test file: the
    strategy of lib/Strategy.js reads the token from the headers. *)
Example headers_token_reaches_verify :
  exists profile,
    run (test_env [JNull; JStr fakeProfile])
      (InstagramLegacy.authenticate (rt := stub_runtime) test_legacy headers_request)
    = ([OAuth2Get (JStr "https://api.instagram.com/v1/users/self") (JStr "access_token");
        Verify None (JStr "access_token") (JStr "refresh_token") profile],
       Normal (Success profile (obj [("info", JStr "foo")]))).
Proof.
  eexists. vm_compute. reflexivity.
Qed.

(** 'Should properly throw error on empty options': the OIDC strategy
    needs a client id, and leaves the store alone when it throws. *)
Example apple_requires_clientID (h : Heap) :
  AppleToken.constructor h None
  = (h, Uncaught (TypeError "AppleTokenStrategy requires a clientID option")).
Proof. reflexivity. Qed.

(** The identity token never reaches the verify callback of the OIDC
    strategy: it is called with [undefined] for both tokens. *)
Example apple_verify_arguments :
  exists profile,
    run (test_env [JNull; fakeClaims])
      (AppleToken.authenticate (rt := stub_runtime) test_apple apple_request)
    = ([JwtVerify (JStr "id_token") (AppleToken.verifyOpts test_apple);
        Verify None JUndefined JUndefined profile],
       Normal (Success profile (obj [("info", JStr "foo")])))
    /\ get_own profile "name" = JUndefined.
Proof.
  eexists. split; [vm_compute; reflexivity | reflexivity].
Qed.

(** * Further properties *)

(** ** The OAuth2 callback: transport errors *)

Lemma try_catch_no_throw {A : Type} (p : Prog A) (h : JsVal -> Prog A) :
  throws p = false -> try_catch p h = p.
Proof. destruct p; (discriminate || reflexivity). Qed.

(** The structured branch, for any [done]: the outer [catch] still guards
    the call of [done]. *)
Lemma oauth2_callback_meta {rt : Runtime} {A : Type} (done : JsVal -> JsVal -> Prog A)
    (error errorJSON : JsVal) (rest : list JsVal) :
  truthy error = true ->
  JSON_parse (to_string (get_own error "data")) = inl errorJSON ->
  is_nullish errorJSON = false ->
  is_nullish (get_own errorJSON "meta") = false ->
  oauth2_callback done (error :: rest)
  = try_catch
      (done (InternalOAuthError (get_own (get_own errorJSON "meta") "error_message")
               (get_own (get_own errorJSON "meta") "code")) JUndefined)
      (fun _ => done (InternalOAuthError (JStr "Failed to fetch user profile") error)
                  JUndefined).
Proof.
  intros Ht Hp Hj Hm. unfold oauth2_callback.
  change (arg 0 (error :: rest)) with error. rewrite Ht.
  unfold parse. rewrite Hp. cbn [bind].
  repeat (rewrite member_defined by assumption; cbn [bind]).
  reflexivity.
Qed.

(** The fallback branch, for any [done]. *)
Lemma oauth2_callback_fallback {rt : Runtime} {A : Type} (done : JsVal -> JsVal -> Prog A)
    (error : JsVal) (rest : list JsVal) :
  truthy error = true ->
  (forall errorJSON,
     JSON_parse (to_string (get_own error "data")) = inl errorJSON ->
     is_nullish errorJSON = true \/ is_nullish (get_own errorJSON "meta") = true) ->
  oauth2_callback done (error :: rest)
  = done (InternalOAuthError (JStr "Failed to fetch user profile") error) JUndefined.
Proof.
  intros Ht Hbad. unfold oauth2_callback.
  change (arg 0 (error :: rest)) with error. rewrite Ht.
  unfold parse.
  destruct (JSON_parse (to_string (get_own error "data"))) as [errorJSON | msg];
    [| reflexivity].
  cbn [bind]. unfold member at 1.
  destruct (is_nullish errorJSON) eqn:Ej; [reflexivity|]. cbn [bind].
  destruct (Hbad errorJSON eq_refl) as [Hn | Hn]; [congruence|].
  unfold member at 1. rewrite Hn. reflexivity.
Qed.

(** X1.  When the GET reports an error whose [data] is a JSON document
    with a [meta] member, the callback hands [done] an [InternalOAuthError]
    whose message is [meta.error_message] and whose [oauthError] is
    [meta.code], and no profile; the error object itself and whatever body
    came along are dropped.  In both Instagram strategies [authenticate]
    then ends in the [error] outcome with it. *)
Theorem provider_error_is_reported {rt : Runtime} (error errorJSON : JsVal)
    (rest : list JsVal) :
  truthy error = true ->
  JSON_parse (to_string (get_own error "data")) = inl errorJSON ->
  is_nullish errorJSON = false ->
  is_nullish (get_own errorJSON "meta") = false ->
  let meta := get_own errorJSON "meta" in
  let reported :=
    InternalOAuthError (get_own meta "error_message") (get_own meta "code") in
  oauth2_callback observe (error :: rest) = Ret (reported, JUndefined)
  /\ (forall st req tok refresh,
        oauth2_callback (InstagramToken.dispatch st req tok refresh) (error :: rest)
        = Ret (Error reported))
  /\ (forall st req tok refresh,
        oauth2_callback (InstagramLegacy.dispatch st req tok refresh) (error :: rest)
        = Ret (Error reported))
  /\ get_own reported "name" = JStr "InternalOAuthError"
  /\ get_own reported "message" = get_own meta "error_message"
  /\ get_own reported "oauthError" = get_own meta "code".
Proof.
  intros Ht Hp Hj Hm meta reported.
  split; [| split; [| split; [| split; [| split]]]]; try reflexivity.
  - rewrite (oauth2_callback_meta observe error errorJSON rest Ht Hp Hj Hm). reflexivity.
  - intros st req tok refresh.
    rewrite (oauth2_callback_meta _ error errorJSON rest Ht Hp Hj Hm). reflexivity.
  - intros st req tok refresh.
    rewrite (oauth2_callback_meta _ error errorJSON rest Ht Hp Hj Hm). reflexivity.
Qed.

Lemma provider_error_is_reported_witness :
  oauth2_callback (rt := stub_runtime2) observe
    [obj [("statusCode", JNum 400); ("data", JStr providerError)]; JUndefined]
  = Ret (InternalOAuthError (JStr "The access_token provided is invalid.") (JNum 400),
         JUndefined).
Proof.
  apply (provider_error_is_reported (rt := stub_runtime2)
           (obj [("statusCode", JNum 400); ("data", JStr providerError)])
           providerError_json [JUndefined]); reflexivity.
Defined.

(** X2.  When the GET reports an error whose [data] is not JSON, or is
    JSON without a [meta] member to read from ([null], a document with
    another layout), the callback hands [done] an [InternalOAuthError]
    "Failed to fetch user profile" that wraps the error as received, and no
    profile; [authenticate] ends in the [error] outcome with it. *)
Theorem transport_error_is_wrapped {rt : Runtime} (error : JsVal) (rest : list JsVal) :
  truthy error = true ->
  (forall errorJSON,
     JSON_parse (to_string (get_own error "data")) = inl errorJSON ->
     is_nullish errorJSON = true \/ is_nullish (get_own errorJSON "meta") = true) ->
  let wrapped := InternalOAuthError (JStr "Failed to fetch user profile") error in
  oauth2_callback observe (error :: rest) = Ret (wrapped, JUndefined)
  /\ (forall st req tok refresh,
        oauth2_callback (InstagramToken.dispatch st req tok refresh) (error :: rest)
        = Ret (Error wrapped))
  /\ (forall st req tok refresh,
        oauth2_callback (InstagramLegacy.dispatch st req tok refresh) (error :: rest)
        = Ret (Error wrapped))
  /\ get_own wrapped "oauthError" = error.
Proof.
  intros Ht Hbad wrapped.
  split; [| split; [| split]]; try reflexivity.
  - apply oauth2_callback_fallback; assumption.
  - intros st req tok refresh.
    rewrite (oauth2_callback_fallback _ error rest Ht Hbad). reflexivity.
  - intros st req tok refresh.
    rewrite (oauth2_callback_fallback _ error rest Ht Hbad). reflexivity.
Qed.

(** The two failing fetches of the tests: an [Error] without data, and
    an error whose document has [error] where [meta] is expected. *)
Lemma transport_error_is_wrapped_witness :
  oauth2_callback (rt := stub_runtime2) observe
    [JErr "Error" (JStr "ERROR") JUndefined; JStr "not a JSON"; JNull]
  = Ret (InternalOAuthError (JStr "Failed to fetch user profile")
           (JErr "Error" (JStr "ERROR") JUndefined), JUndefined)
  /\ oauth2_callback (rt := stub_runtime2) observe
       [obj [("data", JStr testError)]; JStr "not a JSON"; JNull]
     = Ret (InternalOAuthError (JStr "Failed to fetch user profile")
              (obj [("data", JStr testError)]), JUndefined).
Proof.
  split.
  - apply (transport_error_is_wrapped (rt := stub_runtime2)
             (JErr "Error" (JStr "ERROR") JUndefined) [JStr "not a JSON"; JNull]);
      [reflexivity | intros errorJSON E; discriminate E].
  - apply (transport_error_is_wrapped (rt := stub_runtime2)
             (obj [("data", JStr testError)]) [JStr "not a JSON"; JNull]);
      [reflexivity |].
    intros errorJSON E. injection E as <-. right. reflexivity.
Defined.

(** ** The OAuth2 normalizer: which bodies it accepts *)

Lemma profile_of_body_no_data {rt : Runtime} (body json : JsVal) :
  JSON_parse (to_string body) = inl json ->
  is_nullish json = true \/ is_nullish (get_own json "data") = true ->
  exists message, profile_of_body body = Throw (TypeError message).
Proof.
  intros Hp Hbad. unfold profile_of_body, parse. rewrite Hp. cbn [bind].
  unfold member at 1. destruct (is_nullish json) eqn:Ej; [eexists; reflexivity|].
  cbn [bind]. destruct Hbad as [Hn | Hn]; [congruence|].
  unfold member at 1. rewrite Hn. eexists. reflexivity.
Qed.


(** X3.  The normalizer accepts a body exactly when it parses to an
    object whose [data] member is neither [null] nor [undefined]; nothing
    else about the document is checked, so a [data] that is a number still
    gives a profile (with [undefined] id and username and empty names).
    A body that is not JSON gives the [SyntaxError] of [JSON.parse]; a JSON
    value without such a [data] ([null], an array, a string, an object
    lacking it) gives a [TypeError]; in both cases [done] gets the error and
    no profile. *)
Theorem profile_of_body_accepts {rt : Runtime} (body : JsVal) :
  (forall profile,
     profile_of_body body = Ret profile <->
     exists (o : gmap string JsVal) (data : JsVal),
       JSON_parse (to_string body) = inl (JObj o)
       /\ o !! "data" = Some data
       /\ is_nullish data = false
       /\ profile = normalized body o data)
  /\ (forall (o : gmap string JsVal) (n : Z),
        JSON_parse (to_string body) = inl (JObj o) ->
        o !! "data" = Some (JNum n) ->
        exists profile,
          oauth2_callback observe [JNull; body] = Ret (JNull, profile)
          /\ get_own profile "id" = JUndefined
          /\ get_own profile "username" = JUndefined
          /\ get_own profile "displayName" = JStr "")
  /\ (forall json,
        JSON_parse (to_string body) = inl json ->
        is_nullish json = true \/ is_nullish (get_own json "data") = true ->
        exists message,
          profile_of_body body = Throw (TypeError message)
          /\ oauth2_callback observe [JNull; body] = Ret (TypeError message, JUndefined))
  /\ (forall message,
        JSON_parse (to_string body) = inr message ->
        oauth2_callback observe [JNull; body] = Ret (SyntaxError message, JUndefined)).
Proof.
  assert (Hcb : oauth2_callback observe [JNull; body]
                = try_catch (profile <- profile_of_body body ;; observe JNull profile)
                    (fun e => observe e JUndefined)) by reflexivity.
  split; [| split; [| split]].
  - intros profile. split.
    + apply profile_of_body_returns.
    + intros (o & data & Hp & Hd & Hn & ->). apply profile_of_body_object; assumption.
  - intros o n Hp Hd.
    exists (normalized body o (JNum n)).
    rewrite Hcb, (profile_of_body_object body o (JNum n) Hp Hd eq_refl).
    repeat split; reflexivity.
  - intros json Hp Hbad.
    destruct (profile_of_body_no_data body json Hp Hbad) as [m E].
    exists m. split; [exact E|]. rewrite Hcb, E. reflexivity.
  - intros message Hp. rewrite Hcb.
    unfold profile_of_body, parse. rewrite Hp. reflexivity.
Qed.

Lemma profile_of_body_accepts_witness :
  (exists message,
     oauth2_callback (rt := stub_runtime2) observe [JNull; JStr "null"]
     = Ret (TypeError message, JUndefined))
  /\ (exists message,
        oauth2_callback (rt := stub_runtime2) observe [JNull; JStr "[]"]
        = Ret (TypeError message, JUndefined)).
Proof.
  split.
  - destruct (proj1 (proj2 (proj2 (profile_of_body_accepts (rt := stub_runtime2)
                                     (JStr "null"))))
                JNull eq_refl (or_introl eq_refl)) as (m & _ & E).
    exists m. exact E.
  - destruct (proj1 (proj2 (proj2 (profile_of_body_accepts (rt := stub_runtime2)
                                     (JStr "[]"))))
                (JArr []) eq_refl (or_intror eq_refl)) as (m & _ & E).
    exists m. exact E.
Defined.

(** ** The runs of [authenticate] *)




(** ** Construction, continued *)

Lemma opt_set_default_other (k fallback k' : string) (options : gmap string JsVal) :
  k <> k' -> opt (set_default k fallback options) k' = opt options k'.
Proof. intros Hne. unfold opt. rewrite set_default_other by exact Hne. reflexivity. Qed.










(** X10.  The constructor of the OIDC strategy throws a [TypeError] when
    [clientID] is missing or falsy, also when no options are given, and then
    has written nothing: the store is as before.  With a client id it writes
    Apple's default [authorizationURL] and [tokenURL] into the caller's
    object where they are missing, leaves every other property and every
    other object alone, and the instance keeps the client id and takes
    [id_token] as the token field unless another is configured. *)
Theorem apple_constructor_requires_clientID (h : Heap) (l : nat)
    (options : gmap string JsVal) :
  h !! l = Some options ->
  (truthy (opt options "clientID") = false ->
   AppleToken.constructor h (Some l)
   = (h, Uncaught (TypeError "AppleTokenStrategy requires a clientID option")))
  /\ AppleToken.constructor h None
     = (h, Uncaught (TypeError "AppleTokenStrategy requires a clientID option"))
  /\ (truthy (opt options "clientID") = true ->
      exists h' options' st,
        AppleToken.constructor h (Some l) = (h', Normal st)
        /\ h' !! l = Some options'
        /\ (options !! "authorizationURL" = None ->
            options' !! "authorizationURL"
            = Some (JStr "https://appleid.apple.com/auth/authorize"))
        /\ (options !! "tokenURL" = None ->
            options' !! "tokenURL" = Some (JStr "https://appleid.apple.com/auth/token"))
        /\ (forall k, k <> "authorizationURL" -> k <> "tokenURL" ->
                      options' !! k = options !! k)
        /\ (forall l', l' <> l -> h' !! l' = h !! l')
        /\ AppleToken._clientID st = opt options "clientID"
        /\ AppleToken._identityTokenField st
           = js_or (opt options "identityTokenField") (JStr "id_token")
        /\ AppleToken._passReqToCallback st = opt options "passReqToCallback").
Proof.
  intros Hl. split; [| split].
  - intros Hc. unfold AppleToken.constructor. cbn [options_props].
    rewrite Hl. change (default ∅ (Some options)) with options.
    rewrite Hc. reflexivity.
  - reflexivity.
  - intros Hc. unfold AppleToken.constructor. cbn [options_props options_ref].
    rewrite Hl. change (default ∅ (Some options)) with options.
    rewrite Hc. cbn [negb].
    eexists. eexists. eexists. split; [reflexivity|].
    split; [apply lookup_insert_eq|].
    split; [| split; [| split; [| split; [| split; [| split]]]]].
    + intros E. rewrite set_default_other by discriminate.
      rewrite set_default_written, (opt_absent _ _ E). reflexivity.
    + intros E. rewrite set_default_written, opt_set_default_other by discriminate.
      rewrite (opt_absent _ _ E). reflexivity.
    + intros k H1 H2. rewrite !set_default_other by congruence. reflexivity.
    + intros l' Hne. apply lookup_insert_ne. congruence.
    + cbn [AppleToken._clientID]. rewrite !opt_set_default_other by discriminate.
      reflexivity.
    + cbn [AppleToken._identityTokenField].
      rewrite !opt_set_default_other by discriminate. reflexivity.
    + cbn [AppleToken._passReqToCallback].
      rewrite !opt_set_default_other by discriminate. reflexivity.
Qed.

Lemma apple_constructor_requires_clientID_witness :
  (exists h' options' st,
     AppleToken.constructor bare_heap (Some 0%nat) = (h', Normal st)
     /\ h' !! 0%nat = Some options'
     /\ options' !! "tokenURL" = Some (JStr "https://appleid.apple.com/auth/token")
     /\ AppleToken._clientID st = JStr "123")
  /\ AppleToken.constructor off_secret_heap (Some 0%nat)
     = (off_secret_heap,
        Uncaught (TypeError "AppleTokenStrategy requires a clientID option")).
Proof.
  split.
  - destruct (proj2 (proj2 (apple_constructor_requires_clientID bare_heap 0%nat
                              bare_options eq_refl)) eq_refl)
      as (h' & options' & st & E & Hl & _ & Ht & _ & _ & Hc & _).
    exists h', options', st. split; [exact E|]. split; [exact Hl|].
    split; [apply Ht; reflexivity | exact Hc].
  - apply (proj1 (apple_constructor_requires_clientID off_secret_heap 0%nat
                    secret_only_options eq_refl)).
    reflexivity.
Defined.

(** ** The key resolver *)

(** X11.  [getAppleJWKSKey] asks the key set for the key named by the
    [kid] of the token header and passes the answer on: the error as it is,
    and as key the [publicKey] of the key found, else its [rsaPublicKey];
    when no key was found the falsy answer itself is passed, so a failed
    lookup does not throw.  A header that is [null] or [undefined] throws
    before the key set is asked. *)
Theorem signing_key_selection {A : Type}
    (getSigningKey : JsVal -> (JsVal -> JsVal -> Prog A) -> Prog A)
    (header : JsVal) (callback : JsVal -> JsVal -> Prog A) :
  (is_nullish header = false ->
   exists select : JsVal -> JsVal,
     getAppleJWKSKey getSigningKey header callback
     = getSigningKey (get_own header "kid") (fun err key => callback err (select key))
     /\ (forall key, truthy key = false -> select key = key)
     /\ (forall key, truthy key = true -> truthy (get_own key "publicKey") = true ->
                     select key = get_own key "publicKey")
     /\ (forall key, truthy key = true -> truthy (get_own key "publicKey") = false ->
                     select key = get_own key "rsaPublicKey"))
  /\ (is_nullish header = true ->
      exists message,
        getAppleJWKSKey getSigningKey header callback = Throw (TypeError message)).
Proof.
  split.
  - intros Hh.
    exists (fun key =>
              js_and key (js_or (get_own key "publicKey") (get_own key "rsaPublicKey"))).
    split; [| split; [| split]].
    + unfold getAppleJWKSKey. rewrite member_defined by exact Hh. reflexivity.
    + intros key Hk. unfold js_and. rewrite Hk. reflexivity.
    + intros key Hk Hp. unfold js_and, js_or. rewrite Hk, Hp. reflexivity.
    + intros key Hk Hp. unfold js_and, js_or. rewrite Hk, Hp. reflexivity.
  - intros Hh. unfold getAppleJWKSKey, member. rewrite Hh. eexists. reflexivity.
Qed.

Lemma signing_key_selection_witness :
  getAppleJWKSKey (fun kid cb => cb JNull (obj [("rsaPublicKey", JStr "PEM")]))
    (obj [("kid", JStr "86D88Kf"); ("alg", JStr "RS256")]) observe
  = Ret (JNull, JStr "PEM")
  /\ getAppleJWKSKey (fun kid cb => cb (JErr "SigningKeyNotFoundError" kid JUndefined)
                                      JUndefined)
       (obj [("kid", JStr "86D88Kf"); ("alg", JStr "RS256")]) observe
     = Ret (JErr "SigningKeyNotFoundError" (JStr "86D88Kf") JUndefined, JUndefined).
Proof.
  split.
  - destruct (proj1 (signing_key_selection
                       (fun kid cb => cb JNull (obj [("rsaPublicKey", JStr "PEM")]))
                       (obj [("kid", JStr "86D88Kf"); ("alg", JStr "RS256")]) observe)
                eq_refl) as (select & E & _ & _ & Hrsa).
    rewrite E. cbn beta.
    rewrite (Hrsa (obj [("rsaPublicKey", JStr "PEM")]) eq_refl eq_refl).
    reflexivity.
  - destruct (proj1 (signing_key_selection
                       (fun kid cb => cb (JErr "SigningKeyNotFoundError" kid JUndefined)
                                        JUndefined)
                       (obj [("kid", JStr "86D88Kf"); ("alg", JStr "RS256")]) observe)
                eq_refl) as (select & E & Hnone & _).
    rewrite E. cbn beta. rewrite (Hnone JUndefined eq_refl). reflexivity.
Defined.

(** ** What the calls carry *)

(** Every call of [authenticate] of src/index.js is the GET with the
    token or the verify callback with the request (if asked for), the token
    and the refresh token. *)
Lemma instagram_authenticate_calls {rt : Runtime} (P : Call -> Prop)
    (st : InstagramToken.Strategy) (req : Request) :
  (forall url, P (OAuth2Get url (InstagramToken.accessToken_of st req))) ->
  (forall profile,
     P (Verify (if truthy (InstagramToken._passReqToCallback st) then Some req else None)
          (InstagramToken.accessToken_of st req) (InstagramToken.refreshToken_of st req)
          profile)) ->
  ForallCalls P (InstagramToken.authenticate st req).
Proof.
  intros Hget Hverify. unfold InstagramToken.authenticate.
  destruct (negb (truthy (InstagramToken.accessToken_of st req))); [constructor|].
  unfold InstagramToken._loadUserProfile, InstagramToken.userProfile.
  apply ForallCalls_bind.
  - unfold InstagramToken.profile_request_url.
    destruct (InstagramToken._enableProof st); [|constructor].
    apply ForallCalls_bind; [apply ForallCalls_createHmac | intros; constructor].
  - intros url. constructor; [apply Hget|].
    intros args. apply ForallCalls_oauth2_callback.
    intros e p. unfold InstagramToken.dispatch.
    destruct (truthy e); [constructor|].
    specialize (Hverify p).
    destruct (truthy (InstagramToken._passReqToCallback st));
      (constructor; [exact Hverify | intros; constructor]).
Qed.

Lemma legacy_authenticate_calls {rt : Runtime} (P : Call -> Prop)
    (st : InstagramLegacy.Strategy) (req : Request) :
  (forall url, P (OAuth2Get url (InstagramLegacy.accessToken_of req))) ->
  (forall profile,
     P (Verify (if truthy (InstagramLegacy._passReqToCallback st) then Some req else None)
          (InstagramLegacy.accessToken_of req) (InstagramLegacy.refreshToken_of req)
          profile)) ->
  ForallCalls P (InstagramLegacy.authenticate st req).
Proof.
  intros Hget Hverify. unfold InstagramLegacy.authenticate.
  destruct (negb (truthy (InstagramLegacy.accessToken_of req))); [constructor|].
  unfold InstagramLegacy._loadUserProfile, InstagramLegacy.userProfile.
  constructor; [apply Hget|].
  intros args. apply ForallCalls_oauth2_callback.
  intros e p. unfold InstagramLegacy.dispatch.
  destruct (truthy e); [constructor|].
  specialize (Hverify p).
  destruct (truthy (InstagramLegacy._passReqToCallback st));
    (constructor; [exact Hverify | intros; constructor]).
Qed.

Lemma apple_authenticate_calls {rt : Runtime} (P : Call -> Prop)
    (st : AppleToken.Strategy) (req : Request) :
  P (JwtVerify (AppleToken.identityToken_of st req) (AppleToken.verifyOpts st)) ->
  (forall profile,
     P (Verify (if truthy (AppleToken._passReqToCallback st) then Some req else None)
          JUndefined JUndefined profile)) ->
  ForallCalls P (AppleToken.authenticate st req).
Proof.
  intros Hjwt Hverify. unfold AppleToken.authenticate.
  destruct (negb (truthy (AppleToken.identityToken_of st req))); [constructor|].
  destruct (parse_user_returns (AppleToken.user_of req)) as [user ->]. cbn [bind].
  unfold AppleToken._loadUserProfile, AppleToken.userProfile.
  change (get_own (obj [("identityToken", AppleToken.identityToken_of st req);
                        ("user", user)]) "identityToken")
    with (AppleToken.identityToken_of st req).
  constructor; [exact Hjwt|].
  intros args. unfold AppleToken.jwt_callback.
  assert (Hd : forall e p, ForallCalls P (AppleToken.dispatch st req e p)).
  { intros e p. unfold AppleToken.dispatch.
    destruct (truthy e); [constructor|].
    specialize (Hverify p).
    destruct (truthy (AppleToken._passReqToCallback st));
      (constructor; [exact Hverify | intros; constructor]). }
  destruct (truthy (arg 0 args)); [apply Hd|].
  apply ForallCalls_bind; [| intros; apply Hd].
  unfold AppleToken.profile_of_claims.
  repeat (apply ForallCalls_bind; [apply ForallCalls_member | intros ?]).
  constructor.
Qed.

(** X12.  The verify callback gets the request as its first argument
    exactly when [passReqToCallback] is truthy, in each of the three
    strategies, and then it is the request [authenticate] was given. *)
Theorem request_passed_on_demand {rt : Runtime} (v : AnyStrategy) (req : Request) :
  ForallCalls (verify_gets_request (if passes_request v then Some req else None))
    (authenticate_any v req).
Proof.
  destruct v as [st | st | st]; cbn [authenticate_any passes_request].
  - apply instagram_authenticate_calls; intros; reflexivity.
  - apply legacy_authenticate_calls; intros; reflexivity.
  - apply apple_authenticate_calls; intros; reflexivity.
Qed.

(** X13.  The OIDC strategy hands the identity token to [jwt.verify]
    only: it makes no GET, and every call of the verify callback has
    [undefined] for the access token and for the refresh token. *)
Theorem oidc_token_stays_inside {rt : Runtime} (st : AppleToken.Strategy) (req : Request) :
  ForallCalls (oidc_call (AppleToken.identityToken_of st req) (AppleToken.verifyOpts st))
    (AppleToken.authenticate st req).
Proof.
  apply apple_authenticate_calls; [split; reflexivity | intros; split; reflexivity].
Qed.



(** ** The OIDC strategy, continued *)


(** X16.  The [user] value of the request reaches the normalizer parsed
    when it is a string of JSON and as it is when it is not a string, so a
    client may send the name as JSON text or as an object.  When it has a
    first and a last name and [jwt.verify] reports claims, the verify
    callback gets a profile whose [name] has them as [givenName] and
    [familyName]. *)
Theorem user_data_reaches_profile {rt : Runtime} (st : AppleToken.Strategy)
    (req : Request) :
  truthy (AppleToken.identityToken_of st req) = true ->
  let call := JwtVerify (AppleToken.identityToken_of st req) (AppleToken.verifyOpts st) in
  (forall s user,
     AppleToken.user_of req = JStr s -> JSON_parse s = inl user ->
     AppleToken.authenticate st req
     = Vis call (AppleToken.jwt_callback user (AppleToken.dispatch st req)))
  /\ (is_string (AppleToken.user_of req) = false ->
      AppleToken.authenticate st req
      = Vis call (AppleToken.jwt_callback (AppleToken.user_of req)
                    (AppleToken.dispatch st req)))
  /\ (forall (user : gmap string JsVal) (first last : string)
             (env : Call -> list JsVal),
        AppleToken.parse_user (AppleToken.user_of req) = Ret (JObj user) ->
        user !! "firstName" = Some (JStr first) -> first <> "" ->
        user !! "lastName" = Some (JStr last) -> last <> "" ->
        truthy (arg 0 (env call)) = false ->
        is_nullish (arg 1 (env call)) = false ->
        exists r profile,
          fst (run env (AppleToken.authenticate st req))
          = [call; Verify r JUndefined JUndefined profile]
          /\ get_own (get_own profile "name") "givenName" = JStr first
          /\ get_own (get_own profile "name") "familyName" = JStr last).
Proof.
  intros Ht call. split; [| split].
  - intros s user Hu Hp. apply apple_authenticate_verifies; [exact Ht|].
    rewrite Hu. unfold AppleToken.parse_user, parse. cbn [is_string to_string].
    rewrite Hp. reflexivity.
  - intros Hs. apply apple_authenticate_verifies; [exact Ht|].
    unfold AppleToken.parse_user. rewrite Hs. reflexivity.
  - intros user first last env Hu Hf Hfne Hl Hlne He Hc.
    rewrite (apple_authenticate_verifies st req (JObj user) Ht Hu).
    fold call. cbn [run]. unfold AppleToken.jwt_callback. rewrite He.
    unfold AppleToken.profile_of_claims.
    repeat (rewrite member_defined by assumption; cbn [bind]).
    assert (Gf : get_own (JObj user) "firstName" = JStr first)
      by (cbn; rewrite Hf; reflexivity).
    assert (Gl : get_own (JObj user) "lastName" = JStr last)
      by (cbn; rewrite Hl; reflexivity).
    assert (Tf : truthy (JStr first) = true) by (destruct first; [congruence | reflexivity]).
    assert (Tl : truthy (JStr last) = true) by (destruct last; [congruence | reflexivity]).
    assert (Hs : AppleToken.supplies_name (JObj user) = true).
    { unfold AppleToken.supplies_name, js_and, js_or. cbn [truthy].
      rewrite Gl, Tl. exact Tl. }
    rewrite Hs. unfold AppleToken.name_of. rewrite Gf, Gl, Tf, Tl.
    unfold AppleToken.dispatch. cbn [truthy].
    destruct (truthy (AppleToken._passReqToCallback st));
      eexists; eexists; (split; [reflexivity|]); split; reflexivity.
Qed.

Lemma user_data_reaches_profile_witness :
  exists r profile,
    fst (run (test_env [JNull; fakeClaims])
           (AppleToken.authenticate (rt := stub_runtime2) test_apple named_request))
    = [JwtVerify (JStr "id_token") (AppleToken.verifyOpts test_apple);
       Verify r JUndefined JUndefined profile]
    /\ get_own (get_own profile "name") "givenName" = JStr "Eugene"
    /\ get_own (get_own profile "name") "familyName" = JStr "Obrezkov".
Proof.
  apply (proj2 (proj2 (user_data_reaches_profile (rt := stub_runtime2) test_apple
                         named_request eq_refl))
           (list_to_map [("firstName", JStr "Eugene"); ("lastName", JStr "Obrezkov")])
           "Eugene" "Obrezkov" (test_env [JNull; fakeClaims]));
    first [ reflexivity | discriminate ].
Defined.



(** ** The shape of the signature *)

Lemma be_bytes_length (n : nat) (x : N) : length (Sha256.be_bytes n x) = n.
Proof. induction n as [|n IH]; [reflexivity|]. cbn [Sha256.be_bytes length]. congruence. Qed.

Lemma round_length (s : list N) (kw : N * N) : length (Sha256.round s kw) = length s.
Proof.
  unfold Sha256.round.
  do 9 (destruct s as [|? s]; try reflexivity).
Qed.

Lemma rounds_length (kws : list (N * N)) (s : list N) :
  length (fold_left Sha256.round kws s) = length s.
Proof.
  revert s. induction kws as [|kw kws IH]; intros s; [reflexivity|].
  cbn [fold_left]. rewrite IH. apply round_length.
Qed.

Lemma compress_length (h block : list N) : length (Sha256.compress h block) = length h.
Proof.
  unfold Sha256.compress. rewrite length_map, length_combine, rounds_length.
  apply Nat.min_id.
Qed.

Lemma sha256_length (msg : list N) : length (Sha256.sha256 msg) = 32%nat.
Proof.
  unfold Sha256.sha256.
  assert (Hh : forall bs h, length h = 8%nat ->
                            length (fold_left Sha256.compress bs h) = 8%nat).
  { induction bs as [|b bs IH]; intros h Hh; [exact Hh|].
    cbn [fold_left]. apply IH. rewrite compress_length. exact Hh. }
  specialize (Hh (Sha256.blocks (length (Sha256.pad msg) / 64) (Sha256.pad msg))
                Sha256.H0 eq_refl).
  destruct (fold_left Sha256.compress _ Sha256.H0) as [|a [|b [|c [|d [|e [|f [|g [|i [|]]]]]]]]];
    try discriminate Hh.
  cbn [map concat]. rewrite !length_app, !be_bytes_length. reflexivity.
Qed.

Lemma hex_length (bs : list N) : String.length (Sha256.hex bs) = (2 * length bs)%nat.
Proof.
  induction bs as [|b bs IH]; [reflexivity|].
  cbn [Sha256.hex String.length length]. rewrite IH. lia.
Qed.

Lemma hex_digit_is_hex (d : N) : is_hex_digit (Sha256.hex_digit d) = true.
Proof.
  destruct d as [|p]; [reflexivity|].
  do 5 (try (destruct p as [p|p|]; try reflexivity)).
Qed.

Lemma hex_all_hex (bs : list N) : all_chars is_hex_digit (Sha256.hex bs) = true.
Proof.
  induction bs as [|b bs IH]; [reflexivity|].
  cbn [Sha256.hex all_chars]. rewrite !hex_digit_is_hex, IH. reflexivity.
Qed.

Lemma string_length_append (s t : string) :
  String.length (s +:+ t) = (String.length s + String.length t)%nat.
Proof.
  induction s as [|c s IH]; [reflexivity|].
  change (String c s +:+ t) with (String c (s +:+ t)).
  cbn [String.length]. rewrite IH. reflexivity.
Qed.

(** X18.  Whatever the secret and the token, the signature is 64
    characters, each a digit or a letter from [a] to [f]; so with the proof
    on, the URL requested is the profile URL and 69 more characters. *)
Theorem proof_signature_is_64_hex_digits (clientSecret accessToken : string) :
  String.length (proof_signature clientSecret accessToken) = 64%nat
  /\ all_chars is_hex_digit (proof_signature clientSecret accessToken) = true
  /\ (forall (st : InstagramToken.Strategy) (tok : JsVal),
        InstagramToken._enableProof st = true ->
        InstagramToken._clientSecret st = JStr clientSecret ->
        to_string tok = accessToken ->
        exists url,
          InstagramToken.profile_request_url st tok = Ret (JStr url)
          /\ String.length url
             = (String.length (to_string (InstagramToken._profileURL st)) + 69)%nat).
Proof.
  split; [| split].
  - unfold proof_signature, Sha256.hmac. rewrite hex_length, sha256_length. reflexivity.
  - apply hex_all_hex.
  - intros st tok He Hs Ht.
    unfold InstagramToken.profile_request_url. rewrite He, Hs.
    cbn [createHmac_sha256_hex bind]. eexists. split; [reflexivity|].
    rewrite encodeURIComponent_hex, !string_length_append.
    unfold Sha256.hmac. rewrite hex_length, sha256_length. reflexivity.
Qed.

Lemma proof_signature_is_64_hex_digits_witness :
  exists url,
    InstagramToken.profile_request_url test_strategy (JStr "accessToken") = Ret (JStr url)
    /\ String.length url = 108%nat.
Proof.
  apply (proj2 (proj2 (proof_signature_is_64_hex_digits "123" "accessToken"))
           test_strategy (JStr "accessToken")); reflexivity.
Defined.

(** ** A callback that throws *)

(** X19.  Both [try] blocks of the OAuth2 callback enclose the call of
    [done].  When [done] throws on the profile it was handed, the exception
    is caught and [done] is called a second time, with the exception as the
    error and no profile; when it throws on the provider's error, it is
    called again with the "Failed to fetch user profile" error. *)
Theorem done_is_called_again_when_it_throws {rt : Runtime} {A : Type}
    (done : JsVal -> JsVal -> Prog A) (rest : list JsVal) :
  (forall error body profile e,
     truthy error = false ->
     profile_of_body body = Ret profile ->
     done JNull profile = Throw e ->
     oauth2_callback done (error :: body :: rest) = done e JUndefined)
  /\ (forall error errorJSON e,
        truthy error = true ->
        JSON_parse (to_string (get_own error "data")) = inl errorJSON ->
        is_nullish errorJSON = false ->
        is_nullish (get_own errorJSON "meta") = false ->
        done (InternalOAuthError (get_own (get_own errorJSON "meta") "error_message")
                (get_own (get_own errorJSON "meta") "code")) JUndefined = Throw e ->
        oauth2_callback done (error :: rest)
        = done (InternalOAuthError (JStr "Failed to fetch user profile") error) JUndefined).
Proof.
  split.
  - intros error body profile e Ht Ep Ed. unfold oauth2_callback.
    change (arg 0 (error :: body :: rest)) with error.
    change (arg 1 (error :: body :: rest)) with body.
    rewrite Ht, Ep. cbn [bind]. rewrite Ed. reflexivity.
  - intros error errorJSON e Ht Hp Hj Hm Ed.
    rewrite (oauth2_callback_meta done error errorJSON rest Ht Hp Hj Hm), Ed.
    reflexivity.
Qed.

(** A [done] that rejects every profile it is given. *)
Lemma done_is_called_again_when_it_throws_witness :
  oauth2_callback (rt := stub_runtime) picky_done [JNull; JStr fakeProfile]
  = Ret (JErr "Error" (JStr "no profile wanted") JUndefined, JUndefined).
Proof.
  apply (proj1 (done_is_called_again_when_it_throws (rt := stub_runtime) picky_done [])
           JNull (JStr fakeProfile)
           (normalized (JStr fakeProfile) fakeProfile_json (JObj fakeProfile_data))
           (JErr "Error" (JStr "no profile wanted") JUndefined));
    reflexivity.
Defined.
